(** * restic-compose-backup: discovery, mount filtering and orchestration

    A shallow embedding of [restic_compose_backup/containers.py] and of the
    orchestration commands of [restic_compose_backup/cli.py], followed by the
    properties of the specification that were checked against them.

    Conventions.
    - A Python dict read only through [.get] on fixed keys is a record of
      [option] fields ([None] is what [.get] returns for a missing key and
      for a key that holds [None]; where [.get] is given another default,
      the two are kept apart); a dict whose keys are data (labels, the state
      block, a volume mapping) is a [gmap].
    - A Python string is a [string] whose characters are code points below
      256; [None] is [None] of an [option].
    - A function that can raise returns a [result]; the commands of [cli.py]
      run in the monad [M], which threads the trace of delegate calls and
      error logs. *)

From Stdlib Require Import String Ascii ZArith List Bool Lia.
From stdpp Require Import base option list strings gmap.
Import ListNotations.
Local Open Scope string_scope.

(** ** Python primitives used by the program *)

Module py.

(** The exceptions the modelled code can raise or let through. [SystemExit]
    is what [exit(n)] raises; it is not a subclass of [Exception]. *)
Inductive exn : Type :=
| ValueError (msg : string)
| TypeError
| AttributeError
| KeyError (key : string)
| UnboundLocalError (name : string)
| NotImplementedError (msg : string)
| RuntimeError (msg : string)
| SystemExit (code : Z).

Definition is_Exception (e : exn) : bool :=
  match e with
  | SystemExit _ => false
  | _ => true
  end.

Inductive result (A : Type) : Type :=
| Ok (a : A)
| Err (e : exn).
Arguments Ok {A} a.
Arguments Err {A} e.

Definition bind {A B} (r : result A) (k : A -> result B) : result B :=
  match r with
  | Ok a => k a
  | Err e => Err e
  end.

Definition is_Ok {A} (r : result A) : bool :=
  match r with
  | Ok _ => true
  | Err _ => false
  end.

(** Scalars found in the runtime's JSON and returned by delegates. *)
Inductive value : Type :=
| VNone
| VBool (b : bool)
| VInt (z : Z)
| VStr (s : string).

(** [v == 0]: a bool compares as the integer 0 or 1. *)
Definition eq_zero (v : value) : bool :=
  match v with
  | VInt z => (z =? 0)%Z
  | VBool b => negb b
  | VNone | VStr _ => false
  end.

(** [v != 0] *)
Definition ne_zero (v : value) : bool := negb (eq_zero v).

(** [a == b] on values that are a string or [None]. *)
Definition opt_str_eqb (a b : option string) : bool :=
  match a, b with
  | Some x, Some y => String.eqb x y
  | None, None => true
  | _, _ => false
  end.

(** [s.startswith(p)] *)
Definition startswith (s p : string) : bool := String.prefix p s.

(** [p in s] on strings: [p] occurs in [s] as a contiguous substring. *)
Fixpoint contains (p s : string) : bool :=
  String.prefix p s ||
  match s with
  | EmptyString => false
  | String _ s' => contains p s'
  end.

(** White space as [str.strip()] sees it, for code points below 256. *)
Definition isspace (c : ascii) : bool :=
  let n := N_of_ascii c in
  ((9 <=? n) && (n <=? 13) || (28 <=? n) && (n <=? 32)
   || (n =? 133) || (n =? 160))%N.

Fixpoint lstrip (s : string) : string :=
  match s with
  | EmptyString => EmptyString
  | String c s' => if isspace c then lstrip s' else s
  end.

Fixpoint rstrip (s : string) : string :=
  match s with
  | EmptyString => EmptyString
  | String c s' =>
      match rstrip s' with
      | EmptyString => if isspace c then EmptyString else String c EmptyString
      | r => String c r
      end
  end.

(** [s.strip()] *)
Definition strip (s : string) : string := rstrip (lstrip s).

(** [s.split(sep)] for a one-character separator. *)
Fixpoint split (sep : ascii) (s : string) : list string :=
  match s with
  | EmptyString => [EmptyString]
  | String c s' =>
      if Ascii.eqb c sep then EmptyString :: split sep s'
      else match split sep s' with
           | [] => [String c EmptyString]
           | w :: ws => String c w :: ws
           end
  end.

(** [s.find(c)] for a one-character [c]: the index of its first occurrence,
    or -1. *)
Fixpoint str_find (c : ascii) (s : string) : Z :=
  match s with
  | EmptyString => (-1)%Z
  | String a s' =>
      if Ascii.eqb a c then 0%Z
      else let r := str_find c s' in
           if (r <? 0)%Z then (-1)%Z else (r + 1)%Z
  end.

(** An index of a slice of a string of length [n], as Python clamps it. *)
Definition slice_index (n i : Z) : Z :=
  if (i <? 0)%Z then Z.max 0 (i + n) else Z.min i n.

(** [s[start:stop]] *)
Definition slice (s : string) (start stop : Z) : string :=
  let n := Z.of_nat (String.length s) in
  let a := slice_index n start in
  let b := slice_index n stop in
  String.substring (Z.to_nat a) (Z.to_nat (b - a)) s.

(** [s[start:]] *)
Definition slice_from (s : string) (start : Z) : string :=
  slice s start (Z.of_nat (String.length s)).

End py.

Import py.

(** [result] is used through stdpp's monad notation, [x ← r; k]. *)
#[global] Instance result_ret : MRet result := @Ok.
#[global] Instance result_bind : MBind result := fun A B k r => py.bind r k.
#[global] Instance result_fmap : FMap result :=
  fun A B f r => py.bind r (fun a => Ok (f a)).

(** ** The raw records of the container runtime *)

(** One entry of a record's ['Mounts'] list. *)
Record RawMount : Type := {
  Type_ : option string;
  Name : option string;
  Source : option string;
  Destination : option string
}.

(** The ['Config'] block. ['Env'] is read with the default [[]]: [None] is
    a block without that key, [Some None] one where it holds [None] (the
    runtime writes [null] for an empty environment), [Some (Some l)] one
    where it holds the list [l]. *)
Record RawConfig : Type := {
  Image : option string;
  Env : option (option (list string));
  Labels : option (gmap string string)
}.

(** One record of [utils.list_containers()]. A record's own ['Name'] is only
    used for printing and is left out. *)
Record RawData : Type := {
  Id : option string;
  State : option (gmap string value);
  Config : option RawConfig;
  Mounts : option (list RawMount)
}.

(** ** [utils] and [pathlib]: helpers of the package that the modelled
    functions call *)

Class Utils : Type := {
  (** [utils.is_true(value)] on a label value or [None] *)
  is_true : option string -> bool;
  (** [utils.strip_root(path)]; it may raise, as on a path that is [None] *)
  strip_root : option string -> result string;
  (** [str(Path(a) / b)] *)
  path_join : string -> string -> string
}.

(** ** class Mount *)

Module Mount.

(** The back reference [_container] is never read by the modelled code
    and is not stored. *)
Record t : Type := { _data : RawMount }.

Definition __init__ (data : RawMount) : t := {| _data := data |}.

Definition type (m : t) : option string := Type_ (_data m).
Definition name (m : t) : option string := Name (_data m).
Definition source (m : t) : option string := Source (_data m).
Definition destination (m : t) : option string := Destination (_data m).

End Mount.

(** ** class Container *)

Module Container.

Record t : Type := {
  _data : RawData;
  _state : gmap string value;
  _config : RawConfig;
  _mounts : list Mount.t;
  _labels : gmap string string;
  _include : option (list string);
  _exclude : option (list string)
}.

(** [_parse_pattern]: the argument is a label value (a string) or [None]. *)
Definition _parse_pattern (value : option string) : option (list string) :=
  match value with
  | None => None
  | Some v =>
      if String.eqb v "" then None
      else
        let v := strip v in
        if (String.length v =? 0)%nat then None
        else Some (split "," v)
  end.

(** The body of [get_label], [self._labels.get(name, None)]: the [default]
    argument is accepted and not used, a missing key gives [None]. *)
Definition labels_get (labels : gmap string string) (name : string)
    (default : option string) : option string :=
  match labels !! name with
  | Some v => Some v
  | None => None
  end.

(** [Container(data)]. The mount list is walked before any check, and
    iterating [None] raises; [not self._state] holds for a missing state
    block and for an empty one. *)
Definition __init__ (data : RawData) : result t :=
  let state := State data in
  let config := Config data in
  mounts ← match Mounts data with
           | None => Err TypeError
           | Some l => Ok (map Mount.__init__ l)
           end;
  state ← match state with
          | None => Err (ValueError "Container meta missing State")
          | Some st =>
              if decide (st = ∅)
              then Err (ValueError "Container meta missing State")
              else Ok st
          end;
  config ← match config with
           | None => Err (ValueError "Container meta missing Config")
           | Some cfg => Ok cfg
           end;
  labels ← match Labels config with
           | None => Err (ValueError "Container meta missing Config->Labels")
           | Some lb => Ok lb
           end;
  Ok {| _data := data;
        _state := state;
        _config := config;
        _mounts := mounts;
        _labels := labels;
        _include := _parse_pattern
          (labels_get labels "restic-compose-backup.volumes.include" None);
        _exclude := _parse_pattern
          (labels_get labels "restic-compose-backup.volumes.exclude" None) |}.

Definition get_label (self : t) (name : string) (default : option string)
    : option string :=
  labels_get (_labels self) name default.

Definition id (self : t) : option string := Id (_data self).

Definition image (self : t) : option string := Image (_config self).

(** [environment]: [get_config('Env', default=[])]; the default stands in
    for a missing key only, a key that holds [None] gives [None]. *)
Definition environment (self : t) : option (list string) :=
  match Env (_config self) with
  | Some env => env
  | None => Some []
  end.

Definition is_backup_process_container (self : t) : bool :=
  opt_str_eqb (get_label self "restic-compose-backup.backup_process" None)
              (Some "True").

Definition is_running (self : t) : value :=
  match _state self !! "Running" with
  | Some v => v
  | None => VBool false
  end.

Definition service_name (self : t) : option string :=
  get_label self "com.docker.compose.service" (Some "").

Definition project_name (self : t) : option string :=
  get_label self "com.docker.compose.project" (Some "").

Definition is_oneoff (self : t) : bool :=
  opt_str_eqb (get_label self "com.docker.compose.oneoff" (Some "False"))
              (Some "True").

(** [__eq__] against another container or [None]. *)
Definition __eq__ (self : t) (other : option t) : bool :=
  match other with
  | None => false
  | Some o => opt_str_eqb (id self) (id o)
  end.

(** [pattern in mount.source]; the operator raises on a source that is
    [None]. *)
Definition pattern_in_source (pattern : string) (mount : Mount.t) : result bool :=
  match Mount.source mount with
  | None => Err TypeError
  | Some src => Ok (contains pattern src)
  end.

(** The inner [for pattern in patterns: if pattern in mount.source: break]
    loop; [Ok true] when it left through [break], [Ok false] when it ran
    to its [else]. *)
Fixpoint any_pattern (patterns : list string) (mount : Mount.t) : result bool :=
  match patterns with
  | [] => Ok false
  | pattern :: rest =>
      hit ← pattern_in_source pattern mount;
      if (hit : bool) then Ok true else any_pattern rest mount
  end.

(** The outer loop of either branch: a mount is appended when the inner
    loop's outcome equals [keep_on]. *)
Fixpoint select (keep_on : bool) (patterns : list string)
    (mounts : list Mount.t) (filtered : list Mount.t) : result (list Mount.t) :=
  match mounts with
  | [] => Ok filtered
  | mount :: rest =>
      hit ← any_pattern patterns mount;
      select keep_on patterns rest
        (if (Bool.eqb hit keep_on : bool)
         then (filtered ++ [mount])%list else filtered)
  end.

(** A pattern list is truthy when it is a non-empty list. *)
Definition patterns_set (p : option (list string)) : option (list string) :=
  match p with
  | Some (x :: l) => Some (x :: l)
  | _ => None
  end.

Definition filter_mounts (self : t) : result (list Mount.t) :=
  match patterns_set (_include self) with
  | Some include => select true include (_mounts self) []
  | None =>
      match patterns_set (_exclude self) with
      | Some exclude => select false exclude (_mounts self) []
      | None => Ok (_mounts self)
      end
  end.

(** The class of the object that [instance] returns. The three
    subclasses live in [containers_db]; building one from [_data] runs
    the constructor above on a record it already accepted. *)
Inductive kind : Type :=
| BaseContainer
| MariadbContainer
| MysqlContainer
| PostgresContainer.

(** *** Capabilities read from the labels *)

Section WithUtils.
Context {U : Utils}.

Definition volume_backup_enabled (self : t) : bool :=
  is_true (get_label self "restic-compose-backup.volumes" None).

Definition mysql_backup_enabled (self : t) : bool :=
  is_true (get_label self "restic-compose-backup.mysql" None).

Definition mariadb_backup_enabled (self : t) : bool :=
  is_true (get_label self "restic-compose-backup.mariadb" None).

Definition postgresql_backup_enabled (self : t) : bool :=
  is_true (get_label self "restic-compose-backup.postgres" None).

Definition database_backup_enabled (self : t) : bool :=
  mysql_backup_enabled self || mariadb_backup_enabled self
  || postgresql_backup_enabled self.

Definition backup_enabled (self : t) : bool :=
  volume_backup_enabled self || database_backup_enabled self.

(** [instance]; [None] is the implicit [return None] at the end of the
    first branch. *)
Definition instance (self : t) : option (kind * t) :=
  if database_backup_enabled self then
    if mariadb_backup_enabled self then Some (MariadbContainer, self)
    else if mysql_backup_enabled self then Some (MysqlContainer, self)
    else if postgresql_backup_enabled self then Some (PostgresContainer, self)
    else None
  else Some (BaseContainer, self).

(** A volume mapping: [{source: {'bind': path, 'mode': mode}}]. *)
Definition volume_map : Type := gmap (option string) (option string * string).

Definition volumes (self : t) : volume_map :=
  fold_left
    (fun volumes mount =>
       <[Mount.source mount := (Mount.destination mount, "rw")]> volumes)
    (_mounts self) ∅.

(** The ['bind'] of one mount in [volumes_for_backup]; [Path / None]
    raises. *)
Definition backup_bind (self : t) (source_prefix : string) (mount : Mount.t)
    : result string :=
  match service_name self with
  | None => Err TypeError
  | Some service =>
      rel ← strip_root (Mount.destination mount);
      Ok (path_join (path_join source_prefix service) rel)
  end.

Fixpoint volumes_for_backup_loop (self : t) (source_prefix mode : string)
    (mounts : list Mount.t) (volumes : volume_map) : result volume_map :=
  match mounts with
  | [] => Ok volumes
  | mount :: rest =>
      bind ← backup_bind self source_prefix mount;
      volumes_for_backup_loop self source_prefix mode rest
        (<[Mount.source mount := (Some bind, mode)]> volumes)
  end.

Definition volumes_for_backup (self : t) (source_prefix mode : string)
    : result volume_map :=
  mounts ← filter_mounts self;
  volumes_for_backup_loop self source_prefix mode mounts ∅.

End WithUtils.

(** [hostname]: [self.id[:12]]; subscripting [None] raises. *)
Definition hostname (self : t) : result string :=
  match id self with
  | None => Err TypeError
  | Some s => Ok (slice s 0 12)
  end.

(** The key and the value that the comprehension of [get_config_env] reads
    off one entry [i] of the environment: [i[0:i.find('=')]] and
    [i[i.find('=')+1:]]. *)
Definition env_key (i : string) : string := slice i 0 (str_find "=" i).

Definition env_value (i : string) : string := slice_from i (str_find "=" i + 1).

(** [get_config_env]: the dict is filled in the order of the list, a later
    entry replacing an earlier one with the same key; the comprehension
    raises when the environment is [None]. *)
Definition get_config_env (self : t) (name : string) : result (option string) :=
  match environment self with
  | None => Err TypeError
  | Some env =>
      Ok (fold_left (fun data i => <[env_key i := env_value i]> data)
                    env (∅ : gmap string string) !! name)
  end.

End Container.

(** ** class RunningContainers *)

Module RunningContainers.

Record t : Type := {
  containers : list Container.t;
  this_container : Container.t;
  backup_process_container : option Container.t
}.

(** The first loop of [__init__]: every record whose id starts with
    [os.environ['HOSTNAME']] overwrites [this_container]. *)
Fixpoint find_this (HOSTNAME : option string) (all_containers : list RawData)
    (this_container : option Container.t) : result (option Container.t) :=
  match all_containers with
  | [] => Ok this_container
  | container_data :: rest =>
      match Id container_data with
      | None => Err AttributeError
      | Some id =>
          match HOSTNAME with
          | None => Err (KeyError "HOSTNAME")
          | Some hostname =>
              if startswith id hostname then
                c ← Container.__init__ container_data;
                find_this HOSTNAME rest (Some c)
              else find_this HOSTNAME rest this_container
          end
      end
  end.

(** The second loop of [__init__], over all records again. *)
Fixpoint gather (this_container : Container.t) (all_containers : list RawData)
    (backup_process_container : option Container.t)
    (containers : list Container.t)
    : result (option Container.t * list Container.t) :=
  match all_containers with
  | [] => Ok (backup_process_container, containers)
  | container_data :: rest =>
      container ← Container.__init__ container_data;
      let backup_process_container :=
        if Container.is_backup_process_container container
        then Some container else backup_process_container in
      let containers :=
        if opt_str_eqb (Container.project_name container)
                       (Container.project_name this_container)
           && negb (Container.is_oneoff container)
        then if negb (opt_str_eqb (Container.id container)
                                  (Container.id this_container))
             then (containers ++ [container])%list else containers
        else containers in
      gather this_container rest backup_process_container containers
  end.

(** [RunningContainers()]: [all_containers] is what
    [utils.list_containers()] returned and [HOSTNAME] the environment
    variable of that name, if set. *)
Definition __init__ (HOSTNAME : option string) (all_containers : list RawData)
    : result t :=
  this ← find_this HOSTNAME all_containers None;
  match this with
  | None => Err (ValueError "Cannot find metadata for backup container")
  | Some this_container =>
      r ← gather this_container all_containers None [];
      Ok {| containers := r.2;
            this_container := this_container;
            backup_process_container := r.1 |}
  end.

Definition project_name (self : t) : option string :=
  Container.project_name (this_container self).

Definition backup_process_running (self : t) : bool :=
  match backup_process_container self with
  | Some _ => true
  | None => false
  end.

Section WithUtils.
Context {U : Utils}.

Definition containers_for_backup (self : t) : list Container.t :=
  filter (fun c => Container.backup_enabled c = true) (containers self).

Fixpoint generate_backup_mounts_loop (dest_prefix : string)
    (l : list Container.t) (mounts : Container.volume_map)
    : result Container.volume_map :=
  match l with
  | [] => Ok mounts
  | container :: rest =>
      if Container.volume_backup_enabled container then
        v ← Container.volumes_for_backup container dest_prefix "ro";
        generate_backup_mounts_loop dest_prefix rest (v ∪ mounts)
      else generate_backup_mounts_loop dest_prefix rest mounts
  end.

Definition generate_backup_mounts (self : t) (dest_prefix : string)
    : result Container.volume_map :=
  generate_backup_mounts_loop dest_prefix (containers_for_backup self) ∅.

End WithUtils.

Definition get_service (self : t) (name : string) : option Container.t :=
  List.find (fun c => opt_str_eqb (Container.service_name c) (Some name))
            (containers self).

End RunningContainers.

(** ** The commands of [cli.py] *)

(** The fields of [config.Config] that the commands read; they are handed
    to the backup delegate as they are. *)
Module config.

Record Config : Type := {
  repository : value;
  keep_daily : value;
  keep_weekly : value;
  keep_monthly : value;
  keep_yearly : value
}.

End config.

Module cli.

(** The body of an alert: the content read from the log file, or [str(ex)],
    the text of an exception. The text depends on the arguments the
    exception was built with, which [exn] keeps only in part, so [str ex]
    stands for it and is not spelled out. *)
Inductive text : Type :=
| Text (v : value)
| str (ex : exn).

(** Calls that leave the modelled code: [restic], [backup_runner],
    [alerts], the database subclasses of [containers_db], and the one
    file read. *)
Inductive call : Type :=
| restic_init_repo (repository : value)
| restic_backup_files (repository : value) (source : string)
| restic_forget (repository keep_daily keep_weekly keep_monthly keep_yearly : value)
| restic_prune (repository : value)
| backup_runner_run (image : option string) (command : string)
    (volumes : Container.volume_map) (environment : option (list string))
    (source_container_id : option string) (labels : gmap string (option string))
| alerts_send (subject : string) (body : text) (alert_type : string)
| open_read (file : string)
| instance_ping (k : Container.kind) (c : Container.t)
| instance_backup (k : Container.kind) (c : Container.t).

Inductive outcome : Type :=
| Returned (v : value)
| Raised (e : exn).

(** What a run leaves behind, oldest first: the delegate calls with their
    outcomes, and the records logged at error level ([logger.error] with
    its format string, [logger.exception] with the exception). Records
    below error level are not kept. *)
Inductive event : Type :=
| Called (c : call) (o : outcome)
| LoggedError (format : string)
| LoggedException (e : exn).

(** The world outside: the outcome of a call may depend on everything
    that happened before it. *)
Class Delegates : Type := {
  respond : list event -> call -> outcome
}.

Definition M (A : Type) : Type := list event -> result A * list event.

#[global] Instance M_ret : MRet M := fun A a tr => (Ok a, tr).

#[global] Instance M_bind : MBind M := fun A B k m tr =>
  match m tr with
  | (Ok a, tr') => k a tr'
  | (Err e, tr') => (Err e, tr')
  end.

Definition raise {A} (e : exn) : M A := fun tr => (Err e, tr).

Definition lift {A} (r : result A) : M A := fun tr => (r, tr).

Definition logger_error (format : string) : M unit :=
  fun tr => (Ok tt, (tr ++ [LoggedError format])%list).

Definition logger_exception (e : exn) : M unit :=
  fun tr => (Ok tt, (tr ++ [LoggedException e])%list).

(** [try: body / except Exception as ex: handler ex] *)
Definition try_except {A} (body : M A) (handler : exn -> M A) : M A :=
  fun tr =>
    match body tr with
    | (Err e, tr') => if is_Exception e then handler e tr' else (Err e, tr')
    | r => r
    end.

(** [x is False] for [x] a container or [None]: never. *)
Definition is_False (x : option Container.t) : bool := false.

(** [bool(x)] for [x] a container or [None]; [Container] defines neither
    [__bool__] nor [__len__]. *)
Definition container_truthy (x : option Container.t) : bool :=
  match x with
  | Some _ => true
  | None => false
  end.

(** The exit status of the interpreter when a command ends with [r]:
    nothing catches what the commands let through. *)
Definition exit_status {A} (r : result A) : Z :=
  match r with
  | Ok _ => 0
  | Err (SystemExit code) => code
  | Err _ => 1
  end.

Section Commands.
Context {U : Utils} {D : Delegates}.

Definition extern (c : call) : M value :=
  fun tr =>
    let o := respond tr c in
    (match o with Returned v => Ok v | Raised e => Err e end,
     (tr ++ [Called c o])%list).

(** [instance.ping()]; the base class raises. *)
Definition ping (instance : Container.kind * Container.t) : M value :=
  match instance.1 with
  | Container.BaseContainer =>
      raise (NotImplementedError "Base container class don't implement this")
  | k => extern (instance_ping k instance.2)
  end.

(** [instance.backup()]; the base class raises. *)
Definition backup_instance (instance : Container.kind * Container.t) : M value :=
  match instance.1 with
  | Container.BaseContainer =>
      raise (NotImplementedError "Base container class don't implement this")
  | k => extern (instance_backup k instance.2)
  end.

(** [container.instance] followed by an attribute access on it. *)
Definition get_instance (container : Container.t)
    : M (Container.kind * Container.t) :=
  match Container.instance container with
  | Some instance => mret instance
  | None => raise AttributeError
  end.

Fixpoint status_loop (backup_containers : list Container.t) : M unit :=
  match backup_containers with
  | [] => mret tt
  | container :: rest =>
      (if Container.volume_backup_enabled container
       then lift (Container.filter_mounts container) ;; mret tt
       else mret tt) ;;
      (if Container.database_backup_enabled container
       then instance ← get_instance container;
            ping ← ping instance;
            if ne_zero ping
            then logger_error "Database '%s' in service %s cannot be reached"
            else mret tt
       else mret tt) ;;
      status_loop rest
  end.

Definition status (config : config.Config) (containers : RunningContainers.t) : M unit :=
  status_loop (RunningContainers.containers_for_backup containers).

(** [cleanup(config, containers)]; the second argument is not used. *)
Definition cleanup (config : config.Config) : M value :=
  forget_result ← extern (restic_forget
                            (config.repository config)
                            (config.keep_daily config)
                            (config.keep_weekly config)
                            (config.keep_monthly config)
                            (config.keep_yearly config));
  prune_result ← extern (restic_prune (config.repository config));
  mret (VBool (eq_zero forget_result && eq_zero prune_result)).

Definition backup (config : config.Config) (containers : RunningContainers.t) : M unit :=
  if RunningContainers.backup_process_running containers
  then raise (ValueError "Backup process already running")
  else
    extern (restic_init_repo (config.repository config)) ;;
    let this := RunningContainers.this_container containers in
    let volumes := Container.volumes this in
    mounts ← lift (RunningContainers.generate_backup_mounts containers "/volumes");
    let volumes := mounts ∪ volumes in
    r ← try_except
          (result ← extern (backup_runner_run
                              (Container.image this)
                              "restic-compose-backup start-backup-process"
                              volumes
                              (Container.environment this)
                              (Container.id this)
                              (<["restic-compose-backup.backup_process" := Some "True"]>
                               (<["com.docker.compose.project" :=
                                    RunningContainers.project_name containers]> ∅)));
           mret (Some result))
          (fun ex =>
             logger_exception ex ;;
             extern (alerts_send "Exception during backup" (str ex) "ERROR") ;;
             mret None);
    match r with
    | None => mret tt
    | Some result =>
        if ne_zero result
        then body ← extern (open_read "backup.log");
             extern (alerts_send "Backup process exited with non-zero code"
                                 (Text body) "ERROR") ;;
             mret tt
        else mret tt
    end.

(** The volume backup of [start_backup_process]; it returns the new
    value of [errors], which is [False] before it. *)
Definition backup_volumes (config : config.Config) : M bool :=
  try_except
    (vol_result ← extern (restic_backup_files (config.repository config) "/volumes");
     if ne_zero vol_result
     then logger_error "Backup command exited with non-zero code: %s" ;; mret true
     else mret false)
    (fun ex => logger_exception ex ;; mret true).

(** The database loop of [start_backup_process], threading [errors]. *)
Fixpoint backup_databases (l : list Container.t) (errors : bool) : M bool :=
  match l with
  | [] => mret errors
  | container :: rest =>
      errors ← (if Container.database_backup_enabled container
                then try_except
                       (instance ← get_instance container;
                        result ← backup_instance instance;
                        if ne_zero result
                        then logger_error
                               "Backup command exited with non-zero code: %s" ;;
                             mret true
                        else mret errors)
                       (fun ex => logger_exception ex ;; mret true)
                else mret errors);
      backup_databases rest errors
  end.

Definition start_backup_process (config : config.Config)
    (containers : RunningContainers.t) : M unit :=
  let backup_process_container :=
    RunningContainers.backup_process_container containers in
  let this_container := RunningContainers.this_container containers in
  if negb (container_truthy backup_process_container)
     || (Container.__eq__ this_container backup_process_container
         && is_False backup_process_container)
  then logger_error
         ("Cannot run backup process in this container. Use backup command instead. "
          ++ "This will spawn a new container with the necessary mounts.")
  else
    status config containers ;;
    errors ← backup_volumes config;
    let targets := RunningContainers.containers_for_backup containers in
    errors ← backup_databases targets errors;
    if (errors : bool) then raise (SystemExit 1)
    else
      (* [container] is the variable the loop above left behind *)
      match last targets with
      | None => raise (UnboundLocalError "container")
      | Some container =>
          result ← cleanup config;
          if ne_zero result then raise (SystemExit 1) else mret tt
      end.

End Commands.

End cli.

(** ** Vocabulary of the statements *)

Import cli.

(** The delegate calls of a trace, in order. *)
Definition calls (tr : list event) : list call :=
  omap (fun ev => match ev with Called c _ => Some c | _ => None end) tr.

(** A call that came back with a non-zero code or raised. *)
Definition outcome_failed (o : outcome) : bool :=
  match o with
  | Returned v => ne_zero v
  | Raised _ => true
  end.

(** A backup target (the volume backup or one database backup) failed. *)
Definition target_failed (ev : event) : bool :=
  match ev with
  | Called (restic_backup_files _ _) o => outcome_failed o
  | Called (instance_backup _ _) o => outcome_failed o
  | _ => false
  end.

(** The three sub-structures that [Container.__init__] asks for are there. *)
Definition blocks_present (data : RawData) : Prop :=
  is_Some (State data) /\
  exists config, Config data = Some config /\ is_Some (Labels config).

(** ... and the state block is not the empty dict. *)
Definition blocks_usable (data : RawData) : Prop :=
  (exists state, State data = Some state /\ state <> ∅) /\
  exists config, Config data = Some config /\ is_Some (Labels config).

(** [data]'s id starts with the host identifier. *)
Definition id_matches (hostname : string) (data : RawData) : bool :=
  match Id data with
  | Some id => startswith id hostname
  | None => false
  end.

(** A record that carries an id and that [Container.__init__] accepts. *)
Definition well_formed (data : RawData) : Prop :=
  is_Some (Id data) /\ exists c, Container.__init__ data = Ok c.

(** [cs] are the containers built from the records [all], one for one. *)
Definition built_from (all : list RawData) (cs : list Container.t) : Prop :=
  Forall2 (fun data c => Container.__init__ data = Ok c) all cs.

(** The test of the second loop of discovery for joining the peers. *)
Definition is_peer_of (this c : Container.t) : bool :=
  opt_str_eqb (Container.project_name c) (Container.project_name this)
  && negb (Container.is_oneoff c)
  && negb (opt_str_eqb (Container.id c) (Container.id this)).

(** [p] occurs in the source of [m] as a contiguous substring. *)
Definition source_contains (p : string) (m : Mount.t) : Prop :=
  exists src pre post, Mount.source m = Some src /\ src = pre ++ p ++ post.

(** The source of [m] contains at least one of [patterns]. *)
Definition matches_some (patterns : list string) (m : Mount.t) : Prop :=
  Exists (fun p => source_contains p m) patterns.

Section DatabaseTargets.
Context {U : Utils}.

(** The subclass [instance] picks for a container with a database label. *)
Definition db_kind (c : Container.t) : Container.kind :=
  if Container.mariadb_backup_enabled c then Container.MariadbContainer
  else if Container.mysql_backup_enabled c then Container.MysqlContainer
  else Container.PostgresContainer.

(** The peers whose database is to be backed up, and the call each gets. *)
Definition db_targets (rc : RunningContainers.t) : list Container.t :=
  filter (fun c => Container.database_backup_enabled c = true)
         (RunningContainers.containers_for_backup rc).

Definition db_call (c : Container.t) : call := instance_backup (db_kind c) c.

End DatabaseTargets.

(** The ping that [status] sends to a peer with a database label. *)
Definition ping_call {U : Utils} (c : Container.t) : call :=
  instance_ping (db_kind c) c.

(** A call that pings a database. *)
Definition is_ping (c : call) : Prop :=
  match c with
  | instance_ping _ _ => True
  | _ => False
  end.

(** The characters of a string are all white space. *)
Definition only_space (s : string) : Prop :=
  Forall (fun c => isspace c = true) (list_ascii_of_string s).

(** The request that [backup] sends to [backup_runner.run], given the
    mounts generated for the peers. *)
Definition spawn_call (rc : RunningContainers.t) (mounts : Container.volume_map) : call :=
  let this := RunningContainers.this_container rc in
  backup_runner_run
    (Container.image this)
    "restic-compose-backup start-backup-process"
    (mounts ∪ Container.volumes this)
    (Container.environment this)
    (Container.id this)
    (<["restic-compose-backup.backup_process" := Some "True"]>
     (<["com.docker.compose.project" := RunningContainers.project_name rc]> ∅)).

(** ** Concrete inputs for the examples *)

Module sample.

Definition running : gmap string value := {[ "Running" := VBool true ]}.
Definition stopped : gmap string value := {[ "Running" := VBool false ]}.

Definition record (id : string) (state : gmap string value)
    (labels : list (string * string)) (mounts : list RawMount) : RawData :=
  {| Id := Some id;
     State := Some state;
     Config := Some {| Image := Some "restic-compose-backup";
                       Env := Some (Some []);
                       Labels := Some (list_to_map labels) |};
     Mounts := Some mounts |}.

(** The container that [Container.__init__] builds from such a record,
    given the parsed include and exclude patterns. *)
Definition container (id : string) (state : gmap string value)
    (labels : list (string * string)) (mounts : list RawMount)
    (include exclude : option (list string)) : Container.t :=
  {| Container._data := record id state labels mounts;
     Container._state := state;
     Container._config := {| Image := Some "restic-compose-backup";
                             Env := Some (Some []);
                             Labels := Some (list_to_map labels) |};
     Container._mounts := map Mount.__init__ mounts;
     Container._labels := list_to_map labels;
     Container._include := include;
     Container._exclude := exclude |}.

Definition bind_mount (source destination : string) : RawMount :=
  {| Type_ := Some "bind"; Name := None;
     Source := Some source; Destination := Some destination |}.

Definition project (p : string) : string * string := ("com.docker.compose.project", p).
Definition service (s : string) : string * string := ("com.docker.compose.service", s).
Definition marker : string * string := ("restic-compose-backup.backup_process", "True").

(** A stand-in for [utils]: a label is true when it reads [True]. *)
Definition utils : Utils :=
  {| is_true v := opt_str_eqb v (Some "True");
     strip_root p := match p with
                     | Some (String "/" rest) => Ok rest
                     | Some path => Ok path
                     | None => Err AttributeError
                     end;
     path_join a b := a ++ "/" ++ b |}.

(** Delegates that always return 0. *)
Definition all_succeed : Delegates := {| respond _ _ := Returned (VInt 0) |}.

(** Delegates that return 0, except that [forget] returns 1. *)
Definition forget_fails : Delegates :=
  {| respond _ c := match c with
                    | restic_forget _ _ _ _ _ => Returned (VInt 1)
                    | _ => Returned (VInt 0)
                    end |}.

(** Delegates that return 0, except that the volume backup raises. *)
Definition volumes_raise : Delegates :=
  {| respond _ c := match c with
                    | restic_backup_files _ _ => Raised (RuntimeError "restic")
                    | _ => Returned (VInt 0)
                    end |}.

Definition settings : config.Config :=
  {| config.repository := VStr "/repo";
     config.keep_daily := VStr "7";
     config.keep_weekly := VStr "4";
     config.keep_monthly := VStr "12";
     config.keep_yearly := VStr "3" |}.

(** The backup container of project [app] and a [web] service with two
    bind mounts. *)
Definition backup_record : RawData :=
  record "1f2e3d4c5b6a" running [project "app"; service "backup"] [].

Definition web_record : RawData :=
  record "aa11bb22cc33" running
    [project "app"; service "web"; ("restic-compose-backup.volumes", "True");
     ("restic-compose-backup.volumes.include", "media")]
    [bind_mount "/srv/files/media" "/srv/media";
     bind_mount "/srv/files/stuff" "/srv/stuff"].

Definition web : Container.t :=
  container "aa11bb22cc33" running
    [project "app"; service "web"; ("restic-compose-backup.volumes", "True");
     ("restic-compose-backup.volumes.include", "media")]
    [bind_mount "/srv/files/media" "/srv/media";
     bind_mount "/srv/files/stuff" "/srv/stuff"]
    (Some ["media"]) None.

Definition mysql_record : RawData :=
  record "dd44ee55ff66" running
    [project "app"; service "db"; ("restic-compose-backup.mysql", "True")] [].

Definition mysql : Container.t :=
  container "dd44ee55ff66" running
    [project "app"; service "db"; ("restic-compose-backup.mysql", "True")] []
    None None.

(** The [web] service without backup labels, stopped. *)
Definition stopped_record : RawData :=
  record "aa11bb22cc33" stopped [project "app"; service "web"] [].

(** A spawned backup-process container of project [app]. *)
Definition process_record : RawData :=
  record "1f2e99999999" running [marker; project "app"] [].

Definition process : Container.t :=
  container "1f2e99999999" running [marker; project "app"] [] None None.

(** What the spawned process discovers next to the [web] and [db]
    services. *)
Definition group : RunningContainers.t :=
  {| RunningContainers.containers := [web; mysql];
     RunningContainers.this_container := process;
     RunningContainers.backup_process_container := Some process |}.

(** A second one. *)
Definition process_record' : RawData :=
  record "777700000000" running [marker; project "app"] [].

(** The backup-process container of another project on the same host. *)
Definition foreign_process_record : RawData :=
  record "0123456789ab" running [marker; project "other"] [].

(** A record without a mount list, and one with an empty state block. *)
Definition no_mounts_record : RawData :=
  {| Id := Some "aa11bb22cc33";
     State := Some running;
     Config := Some {| Image := None; Env := None; Labels := Some ∅ |};
     Mounts := None |}.

Definition empty_state_record : RawData :=
  record "aa11bb22cc33" ∅ [] [].

(** A service with no labels at all. *)
Definition unlabelled_record : RawData :=
  record "9a8b7c6d5e4f" running [] [].

(** A record with no state block and no mount list. *)
Definition bare_record : RawData :=
  {| Id := Some "aa11bb22cc33"; State := None; Config := None; Mounts := None |}.

(** The backup container itself, and what it discovers while no backup
    process is up. *)
Definition backup_container : Container.t :=
  container "1f2e3d4c5b6a" running [project "app"; service "backup"] [] None None.

Definition idle_group : RunningContainers.t :=
  {| RunningContainers.containers := [web; mysql];
     RunningContainers.this_container := backup_container;
     RunningContainers.backup_process_container := None |}.

(** The mounts generated for the peers of [idle_group]. *)
Definition idle_mounts : Container.volume_map :=
  {[ Some "/srv/files/media" := (Some "/volumes/web/srv/media", "ro") ]}.

(** A service with two environment entries for the same key, and one entry
    without an equals sign. *)
Definition env_container : Container.t :=
  {| Container._data := unlabelled_record;
     Container._state := running;
     Container._config :=
       {| Image := None;
          Env := Some (Some ["MYSQL_USER=app"; "PATH"; "MYSQL_USER=root=admin"]);
          Labels := Some ∅ |};
     Container._mounts := [];
     Container._labels := ∅;
     Container._include := None;
     Container._exclude := None |}.

(** A record whose config block has no ['Env'] key, and one where the key
    holds [None]. *)
Definition no_env_record : RawData :=
  {| Id := Some "9a8b7c6d5e4f";
     State := Some running;
     Config := Some {| Image := None; Env := None; Labels := Some ∅ |};
     Mounts := Some [] |}.

Definition null_env_record : RawData :=
  {| Id := Some "9a8b7c6d5e4f";
     State := Some running;
     Config := Some {| Image := None; Env := Some None; Labels := Some ∅ |};
     Mounts := Some [] |}.

(** A volume-enabled service without the compose service label. *)
Definition nameless : Container.t :=
  container "0a0b0c0d0e0f" running
    [project "app"; ("restic-compose-backup.volumes", "True")]
    [bind_mount "/srv/data" "/data"] None None.

(** A mount without a source. *)
Definition sourceless_mount : RawMount :=
  {| Type_ := Some "volume"; Name := Some "cache"; Source := None;
     Destination := Some "/cache" |}.

(** A service with an include list and a mount without a source, as the
    runtime reports it, and a service with such a mount and no list. *)
Definition sourceless_record : RawData :=
  record "aa11bb22cc33" running
    [("restic-compose-backup.volumes.include", "media")]
    [bind_mount "/srv/files/media" "/srv/media"; sourceless_mount].

Definition sourceless : Container.t :=
  container "aa11bb22cc33" running [] [sourceless_mount] None None.

(** Delegates that return 0, except that the spawned container exits
    with 3. *)
Definition spawn_fails : Delegates :=
  {| respond _ c := match c with
                    | backup_runner_run _ _ _ _ _ _ => Returned (VInt 3)
                    | open_read _ => Returned (VStr "restic: lock failed")
                    | _ => Returned (VInt 0)
                    end |}.

(** Delegates that return 0, except that spawning raises. *)
Definition spawn_raises : Delegates :=
  {| respond _ c := match c with
                    | backup_runner_run _ _ _ _ _ _ => Raised (RuntimeError "no image")
                    | _ => Returned (VInt 0)
                    end |}.

(** Delegates that return 0, except that [forget] raises. *)
Definition forget_raises : Delegates :=
  {| respond _ c := match c with
                    | restic_forget _ _ _ _ _ => Raised (RuntimeError "locked")
                    | _ => Returned (VInt 0)
                    end |}.

(** Delegates that return 0, except that every ping raises. *)
Definition ping_raises : Delegates :=
  {| respond _ c := match c with
                    | instance_ping _ _ => Raised (RuntimeError "no socket")
                    | _ => Returned (VInt 0)
                    end |}.

(** The backup container next to that service. *)
Definition nameless_group : RunningContainers.t :=
  {| RunningContainers.containers := [nameless];
     RunningContainers.this_container := backup_container;
     RunningContainers.backup_process_container := None |}.

(** As [spawn_fails], with a log file that cannot be opened. *)
Definition log_unreadable : Delegates :=
  {| respond _ c := match c with
                    | backup_runner_run _ _ _ _ _ _ => Returned (VInt 3)
                    | open_read _ => Raised (RuntimeError "backup.log")
                    | _ => Returned (VInt 0)
                    end |}.

(** What the backup container discovers while the spawned process is up. *)
Definition busy_group : RunningContainers.t :=
  {| RunningContainers.containers := [web; process];
     RunningContainers.this_container := backup_container;
     RunningContainers.backup_process_container := Some process |}.

End sample.

(** * Properties *)

(** ** Strings *)

Lemma prefix_spec (p s : string) :
  String.prefix p s = true <-> exists post, s = p ++ post.
Proof.
  revert s. induction p as [|a p IH]; intros s.
  - split; [intros _; exists s; reflexivity | intros _; destruct s; reflexivity].
  - destruct s as [|b s]; simpl.
    + split; [discriminate | intros [post Hpost]; discriminate].
    + destruct (ascii_dec a b) as [->|Hab].
      * rewrite IH. split; intros [post Hpost]; exists post.
        -- subst s. reflexivity.
        -- change (String b s = String b (p ++ post)) in Hpost. congruence.
      * split; [discriminate | intros [post Hpost]].
        change (String b s = String a (p ++ post)) in Hpost. congruence.
Qed.

Lemma contains_unfold (p s : string) :
  contains p s =
  String.prefix p s || match s with
                       | EmptyString => false
                       | String _ s' => contains p s'
                       end.
Proof. destruct s; reflexivity. Qed.

(** [contains] is substring containment. *)
Lemma contains_spec (p s : string) :
  contains p s = true <-> exists pre post, s = pre ++ p ++ post.
Proof.
  split.
  - induction s as [|c s IH]; rewrite contains_unfold, orb_true_iff.
    + intros [Hp | Hf]; [|discriminate].
      apply prefix_spec in Hp as [post Hpost]. exists "", post. exact Hpost.
    + intros [Hp | Hc].
      * apply prefix_spec in Hp as [post Hpost]. exists "", post. exact Hpost.
      * destruct (IH Hc) as (pre & post & ->). exists (String c pre), post. reflexivity.
  - intros (pre & post & ->). induction pre as [|c pre IH].
    + rewrite contains_unfold, orb_true_iff. left. apply prefix_spec. eauto.
    + rewrite contains_unfold, orb_true_iff. right. exact IH.
Qed.

(** Matching is case-sensitive: it compares characters for equality. *)
Example contains_case_sensitive :
  contains "media" "/srv/files/media" = true /\
  contains "Media" "/srv/files/media" = false.
Proof. split; reflexivity. Qed.

Example split_commas : split "," "media, data,,x" = ["media"; " data"; ""; "x"].
Proof. reflexivity. Qed.

Example strip_spaces : strip "  media files   " = "media files".
Proof. reflexivity. Qed.

Lemma split_not_nil (sep : ascii) (s : string) : split sep s <> [].
Proof.
  destruct s as [|c s]; simpl; [discriminate|].
  destruct (Ascii.eqb c sep); [discriminate|].
  destruct (split sep s); discriminate.
Qed.

(** A parsed pattern list is never the empty list: it is truthy as soon as
    it is not [None]. *)
Lemma parse_pattern_not_nil (v : option string) :
  Container._parse_pattern v <> Some [].
Proof.
  unfold Container._parse_pattern. destruct v as [v|]; [|discriminate].
  destruct (String.eqb v ""); [discriminate|].
  destruct (String.length (strip v) =? 0)%nat; [discriminate|].
  intros [= Habs]. exact (split_not_nil _ _ Habs).
Qed.

(** ** Container construction *)

Lemma is_Ok_true {A} (r : result A) : is_Ok r = true -> exists a, r = Ok a.
Proof. destruct r as [a|e]; [eauto | discriminate]. Qed.

Lemma is_Ok_not_Err {A} (r : result A) (e : exn) : is_Ok r = true -> r <> Err e.
Proof. intros Hok ->. discriminate Hok. Qed.

Lemma well_formed_check (data : RawData) :
  is_Some (Id data) -> is_Ok (Container.__init__ data) = true -> well_formed data.
Proof. intros Hid Hok. split; [exact Hid | exact (is_Ok_true _ Hok)]. Qed.

Lemma init_data (data : RawData) (c : Container.t) :
  Container.__init__ data = Ok c -> Container._data c = data.
Proof.
  unfold Container.__init__. intros Hc.
  destruct (Mounts data) as [ms|]; simpl in Hc; [|discriminate].
  destruct (State data) as [st|]; simpl in Hc; [|discriminate].
  destruct (decide (st = ∅)); simpl in Hc; [discriminate|].
  destruct (Config data) as [cfg|]; simpl in Hc; [|discriminate].
  destruct (Labels cfg) as [lb|]; simpl in Hc; [|discriminate].
  injection Hc as <-. reflexivity.
Qed.

(** C10 (as amended). For every raw record whose mount list is present,
    construction fails with a [ValueError] (the malformed-record error) when
    the running-state block is absent or empty, the configuration block is
    absent, or the configuration's labels map is absent, and it succeeds,
    keeping the record, in every other case. *)
Theorem C10_init_malformed_or_built (data : RawData) (mounts : list RawMount) :
  Mounts data = Some mounts ->
  (~ blocks_usable data -> exists msg, Container.__init__ data = Err (ValueError msg)) /\
  (blocks_usable data ->
   exists c, Container.__init__ data = Ok c /\ Container._data c = data).
Proof.
  intros Hm. unfold blocks_usable, Container.__init__. rewrite Hm. simpl.
  destruct (State data) as [st|]; simpl.
  2:{ split; [eauto | intros [(st & Hst & _) _]; discriminate]. }
  destruct (decide (st = ∅)) as [->|Hne]; simpl.
  { split; [eauto | intros [(st & [= <-] & Hst) _]; contradiction]. }
  destruct (Config data) as [cfg|]; simpl.
  2:{ split; [eauto | intros [_ (cfg & Hcfg & _)]; discriminate]. }
  destruct (Labels cfg) as [lb|] eqn:Hlb; simpl.
  2:{ split; [eauto |].
      intros [_ (cfg' & [= <-] & Hsome)]. rewrite Hlb in Hsome.
      destruct Hsome; discriminate. }
  split; [|eauto].
  intros Hnot. exfalso. apply Hnot. split; [eauto|].
  exists cfg. rewrite Hlb. eauto.
Qed.

Lemma C10_init_malformed_or_built_witness :
  exists c, Container.__init__ sample.web_record = Ok c /\
            Container._data c = sample.web_record.
Proof.
  apply (C10_init_malformed_or_built sample.web_record
           [sample.bind_mount "/srv/files/media" "/srv/media";
            sample.bind_mount "/srv/files/stuff" "/srv/stuff"]).
  - reflexivity.
  - split.
    + exists sample.running. split; [reflexivity|].
      intros Hempty. apply (f_equal (fun m => m !! "Running")) in Hempty.
      vm_compute in Hempty. discriminate Hempty.
    + eexists. split; [reflexivity | eexists; reflexivity].
Defined.

(** C10 (as stated) fails: a record with all three sub-structures present
    but no mount list raises a [TypeError], one whose state block is the
    empty dict is rejected as missing its state, and a record missing both
    the state block and the mount list fails with the [TypeError], not with
    the malformed-record error. *)
Lemma C10_counterexample :
  (blocks_present sample.no_mounts_record /\
   Container.__init__ sample.no_mounts_record = Err TypeError) /\
  (blocks_present sample.empty_state_record /\
   Container.__init__ sample.empty_state_record
   = Err (ValueError "Container meta missing State")) /\
  (~ blocks_present sample.bare_record /\
   Container.__init__ sample.bare_record = Err TypeError).
Proof.
  repeat split; try reflexivity; try (eexists; reflexivity).
  - eexists. split; [reflexivity | eexists; reflexivity].
  - eexists. split; [reflexivity | eexists; reflexivity].
  - intros [[st Hst] _]. discriminate.
Qed.

(** ** Labels *)

(** [get_label] never raises, and on an absent key it returns [None]
    whatever default the caller passed. *)
Lemma get_label_absent (c : Container.t) (name : string) (default : option string) :
  Container._labels c !! name = None ->
  Container.get_label c name default = None.
Proof.
  intros Hnone. unfold Container.get_label, Container.labels_get.
  rewrite Hnone. reflexivity.
Qed.

Lemma get_label_present (c : Container.t) (name v : string) (default : option string) :
  Container._labels c !! name = Some v ->
  Container.get_label c name default = Some v.
Proof.
  intros Hsome. unfold Container.get_label, Container.labels_get.
  rewrite Hsome. reflexivity.
Qed.

(** C5 (the code at the failing input). On a container without labels,
    [get_label] with default [''] returns [None] instead of the default, and
    so do [service_name] and [project_name]; [is_oneoff] is still [False]. *)
Theorem C5_get_label_drops_default :
  (c ← Container.__init__ sample.unlabelled_record;
   Ok (Container._labels c !! "com.docker.compose.service",
       Container.get_label c "com.docker.compose.service" (Some ""),
       Container.service_name c,
       Container.project_name c,
       Container.is_oneoff c))
  = Ok (None, None, None, None, false).
Proof. vm_compute. reflexivity. Qed.

(** ** Mount filtering *)

#[global] Instance source_contains_dec (p : string) (m : Mount.t) :
  Decision (source_contains p m).
Proof.
  unfold source_contains. destruct (Mount.source m) as [src|].
  - destruct (contains p src) eqn:Hc.
    + left. apply contains_spec in Hc as (pre & post & ->). eauto.
    + right. intros (src' & pre & post & [= <-] & Heq).
      assert (contains p src = true) as Ht by (apply contains_spec; eauto).
      congruence.
  - right. intros (src & pre & post & Hsrc & _). discriminate.
Defined.

#[global] Instance matches_some_dec (patterns : list string) (m : Mount.t) :
  Decision (matches_some patterns m).
Proof. unfold matches_some. apply _. Defined.

Lemma pattern_in_source_spec (p : string) (m : Mount.t) :
  is_Some (Mount.source m) ->
  Container.pattern_in_source p m = Ok (bool_decide (source_contains p m)).
Proof.
  intros [src Hsrc]. unfold Container.pattern_in_source. rewrite Hsrc. f_equal.
  destruct (contains p src) eqn:Hc; symmetry.
  - apply bool_decide_eq_true. apply contains_spec in Hc as (pre & post & ->).
    exists (pre ++ p ++ post), pre, post. auto.
  - apply bool_decide_eq_false. intros (src' & pre & post & Hsrc' & ->).
    rewrite Hsrc in Hsrc'. injection Hsrc' as ->.
    assert (contains p (pre ++ p ++ post) = true) by (apply contains_spec; eauto).
    congruence.
Qed.

(** The inner loop leaves through [break] exactly when some pattern occurs
    in the source. *)
Lemma any_pattern_spec (patterns : list string) (m : Mount.t) :
  is_Some (Mount.source m) ->
  Container.any_pattern patterns m = Ok (bool_decide (matches_some patterns m)).
Proof.
  intros Hsrc. unfold matches_some.
  induction patterns as [|p ps IH]; simpl.
  - reflexivity.
  - rewrite (pattern_in_source_spec p m Hsrc). simpl.
    destruct (decide (source_contains p m)) as [Hp|Hp].
    + rewrite (bool_decide_eq_true_2 _ Hp). f_equal. symmetry.
      apply bool_decide_eq_true. apply Exists_cons_hd, Hp.
    + rewrite (bool_decide_eq_false_2 _ Hp), IH. f_equal.
      apply bool_decide_ext. rewrite Exists_cons. tauto.
Qed.

(** The outer loop appends, in order, the mounts whose inner loop ended the
    way [keep_on] asks. *)
Lemma select_spec (keep_on : bool) (patterns : list string)
    (mounts filtered : list Mount.t) :
  Forall (fun m => is_Some (Mount.source m)) mounts ->
  Container.select keep_on patterns mounts filtered
  = Ok (filtered ++
        filter (fun m => bool_decide (matches_some patterns m) = keep_on) mounts)%list.
Proof.
  intros Hall. revert filtered.
  induction Hall as [|m ms Hm _ IH]; intros filtered; simpl.
  - rewrite app_nil_r. reflexivity.
  - rewrite (any_pattern_spec patterns m Hm). simpl. rewrite IH. f_equal.
    destruct (decide (bool_decide (matches_some patterns m) = keep_on)) as [He|He].
    + rewrite filter_cons_True by exact He.
      replace (Bool.eqb _ keep_on) with true
        by (symmetry; apply Bool.eqb_true_iff, He).
      rewrite <- app_assoc. reflexivity.
    + rewrite filter_cons_False by exact He.
      replace (Bool.eqb _ keep_on) with false
        by (symmetry; apply Bool.eqb_false_iff, He).
      reflexivity.
Qed.

(** C9 (as amended). For every container whose mounts all carry a source
    whenever an include or an exclude list is present (a mount without a
    source makes the test of a pattern raise):
    with an include list present,
    [filter_mounts] returns, in order, exactly the mounts whose source
    contains at least one include pattern as a substring (the exclude list
    is not looked at); otherwise, with an exclude list present, exactly the
    mounts whose source contains none of the exclude patterns; otherwise
    all mounts, unchanged, whether they carry a source or not. A list is
    present when it is not [None] and not empty, which for a parsed label
    is the same as not [None] ([parse_pattern_not_nil]). *)
Theorem C9_filter_mounts (c : Container.t) :
  (is_Some (Container.patterns_set (Container._include c)) \/
   is_Some (Container.patterns_set (Container._exclude c)) ->
   Forall (fun m => is_Some (Mount.source m)) (Container._mounts c)) ->
  match Container._include c, Container._exclude c with
  | Some (p :: ps), _ =>
      Container.filter_mounts c
      = Ok (filter (matches_some (p :: ps)) (Container._mounts c))
  | _, Some (p :: ps) =>
      Container.filter_mounts c
      = Ok (filter (fun m => ~ matches_some (p :: ps) m) (Container._mounts c))
  | _, _ => Container.filter_mounts c = Ok (Container._mounts c)
  end.
Proof.
  intros Hsrc. unfold Container.filter_mounts.
  assert (forall ps, filter (fun m => bool_decide (matches_some ps m) = true)
                       (Container._mounts c)
                     = filter (matches_some ps) (Container._mounts c)) as Hin.
  { intros ps. apply list_filter_iff. intros m.
    rewrite bool_decide_eq_true. reflexivity. }
  assert (forall ps, filter (fun m => bool_decide (matches_some ps m) = false)
                       (Container._mounts c)
                     = filter (fun m => ~ matches_some ps m) (Container._mounts c))
    as Hex.
  { intros ps. apply list_filter_iff. intros m.
    rewrite bool_decide_eq_false. reflexivity. }
  destruct (Container._include c) as [[|p ps]|];
    destruct (Container._exclude c) as [[|q qs]|]; simpl in *;
    try reflexivity;
    rewrite select_spec
      by (apply Hsrc; first [left; eexists; reflexivity | right; eexists; reflexivity]);
    rewrite ?Hin, ?Hex; reflexivity.
Qed.

(** With an include list, the mounts must carry a source; without any
    list, a mount without a source passes through. *)
Lemma C9_filter_mounts_witness :
  Container.filter_mounts sample.web
  = Ok (filter (matches_some ["media"]) (Container._mounts sample.web)) /\
  Container.filter_mounts sample.sourceless
  = Ok (Container._mounts sample.sourceless).
Proof.
  split.
  - apply (C9_filter_mounts sample.web). intros _.
    repeat (constructor; [eexists; reflexivity|]). constructor.
  - apply (C9_filter_mounts sample.sourceless).
    intros [[l Hl]|[l Hl]]; discriminate.
Defined.

(** A mount without a source, in a container with an include list: the
    constructor accepts the record, and [filter_mounts] raises where the
    claim has it return the matching mounts. *)
Lemma C9_counterexample :
  (fun c => (Container._include c, Mount.source <$> Container._mounts c,
             Container.filter_mounts c))
    <$> Container.__init__ sample.sourceless_record
  = Ok (Some ["media"], [Some "/srv/files/media"; None], Err TypeError).
Proof. vm_compute. reflexivity. Qed.

(** The example of the test suite: include pattern [media] keeps the
    [media] mount and drops the other. *)
Example filter_mounts_media :
  (c ← Container.__init__ sample.web_record; Container.filter_mounts c)
  = Ok [Mount.__init__ (sample.bind_mount "/srv/files/media" "/srv/media")].
Proof. vm_compute. reflexivity. Qed.

Example web_container_built : Container.__init__ sample.web_record = Ok sample.web.
Proof. vm_compute. reflexivity. Qed.

(** ** Discovery *)

Lemma opt_str_eqb_eq (a b : option string) : opt_str_eqb a b = true <-> a = b.
Proof.
  destruct a as [x|], b as [y|]; simpl; try (split; congruence).
  rewrite String.eqb_eq. split; congruence.
Qed.

Lemma opt_str_eqb_neq (a b : option string) : opt_str_eqb a b = false <-> a <> b.
Proof.
  rewrite <- opt_str_eqb_eq. destruct (opt_str_eqb a b); split; congruence.
Qed.

Lemma is_peer_of_spec (this c : Container.t) :
  is_peer_of this c = true <->
  Container.project_name c = Container.project_name this /\
  Container.is_oneoff c = false /\
  Container.id c <> Container.id this.
Proof.
  unfold is_peer_of.
  rewrite !andb_true_iff, !negb_true_iff, opt_str_eqb_eq, opt_str_eqb_neq.
  tauto.
Qed.

Lemma well_formed_built (all : list RawData) :
  Forall well_formed all -> exists cs, built_from all cs.
Proof.
  induction 1 as [|d rest [_ [c Hc]] _ [cs Hcs]].
  - exists []. constructor.
  - exists (c :: cs). constructor; assumption.
Qed.

(** The first loop keeps the last record whose id matches. *)
Lemma find_this_spec (h : string) (all : list RawData) (acc : option Container.t) :
  Forall well_formed all ->
  exists r, RunningContainers.find_this (Some h) all acc = Ok r /\
    match last (filter (fun d => id_matches h d = true) all) with
    | None => r = acc
    | Some d => exists c, Container.__init__ d = Ok c /\ r = Some c
    end.
Proof.
  intros Hall. revert acc.
  induction Hall as [|d rest [[id Hid] [c Hc]] _ IH]; intros acc.
  - exists acc. split; reflexivity.
  - simpl. rewrite Hid.
    assert (id_matches h d = startswith id h) as Hm
      by (unfold id_matches; rewrite Hid; reflexivity).
    destruct (startswith id h) eqn:Hs.
    + rewrite Hc. simpl. destruct (IH (Some c)) as (r & Hr & Hlast).
      exists r. split; [exact Hr|].
      rewrite filter_cons_True by exact Hm. rewrite last_cons.
      destruct (last (filter _ rest)); [exact Hlast | subst r; eauto].
    + destruct (IH acc) as (r & Hr & Hlast).
      exists r. split; [exact Hr|].
      rewrite filter_cons_False by (rewrite Hm; discriminate). exact Hlast.
Qed.

(** The second loop keeps the last marked container and appends, in order,
    the containers that pass the peer test. *)
Lemma gather_spec (this : Container.t) (all : list RawData) (cs : list Container.t)
    (bpc : option Container.t) (acc : list Container.t) :
  built_from all cs ->
  RunningContainers.gather this all bpc acc
  = Ok (match last (filter (fun c => Container.is_backup_process_container c = true) cs)
        with
        | Some c => Some c
        | None => bpc
        end,
        (acc ++ filter (fun c => is_peer_of this c = true) cs)%list).
Proof.
  intros Hcs. revert bpc acc.
  induction Hcs as [|d c rest cs Hc _ IH]; intros bpc acc; simpl.
  - rewrite app_nil_r. reflexivity.
  - rewrite Hc. simpl. rewrite IH. f_equal. f_equal.
    + destruct (Container.is_backup_process_container c) eqn:Hmark.
      * rewrite filter_cons_True by exact Hmark. rewrite last_cons.
        destruct (last (filter _ cs)); reflexivity.
      * rewrite filter_cons_False by (rewrite Hmark; discriminate). reflexivity.
    + unfold is_peer_of at 2.
      destruct (opt_str_eqb (Container.project_name c) (Container.project_name this)
                && negb (Container.is_oneoff c)) eqn:Hproj; simpl.
      * destruct (negb (opt_str_eqb (Container.id c) (Container.id this))) eqn:Hid.
        -- rewrite filter_cons_True
             by (unfold is_peer_of; rewrite Hproj, Hid; reflexivity).
           rewrite <- app_assoc. reflexivity.
        -- rewrite filter_cons_False
             by (unfold is_peer_of; rewrite Hproj, Hid; discriminate).
           reflexivity.
      * rewrite filter_cons_False by (unfold is_peer_of; rewrite Hproj; discriminate).
        reflexivity.
Qed.

Lemma gather_built (this : Container.t) (all : list RawData)
    (bpc : option Container.t) (acc : list Container.t)
    (r : option Container.t * list Container.t) :
  RunningContainers.gather this all bpc acc = Ok r -> exists cs, built_from all cs.
Proof.
  revert bpc acc. induction all as [|d rest IH]; intros bpc acc; simpl.
  - exists []. constructor.
  - destruct (Container.__init__ d) as [c|e] eqn:Hc; simpl; [|discriminate].
    intros Hg. destruct (IH _ _ Hg) as [cs Hcs].
    exists (c :: cs). constructor; assumption.
Qed.

(** What a successful discovery computed, in terms of the containers built
    from the records. *)
Lemma discovery_inv (HOSTNAME : option string) (all : list RawData)
    (rc : RunningContainers.t) :
  RunningContainers.__init__ HOSTNAME all = Ok rc ->
  exists cs, built_from all cs /\
    RunningContainers.backup_process_container rc
    = last (filter (fun c => Container.is_backup_process_container c = true) cs) /\
    RunningContainers.containers rc
    = filter (fun c => is_peer_of (RunningContainers.this_container rc) c = true) cs.
Proof.
  unfold RunningContainers.__init__.
  destruct (RunningContainers.find_this HOSTNAME all None) as [[this|]|e];
    simpl; try discriminate.
  destruct (RunningContainers.gather this all None []) as [r|e] eqn:Hg;
    simpl; [|discriminate].
  intros [= <-]. destruct (gather_built _ _ _ _ _ Hg) as [cs Hcs].
  exists cs. split; [exact Hcs|].
  rewrite (gather_spec this all cs None [] Hcs) in Hg. injection Hg as <-.
  simpl. split; [|reflexivity].
  destruct (last (filter _ cs)); reflexivity.
Qed.




(** C4 (as amended). After a successful discovery,
    [backup_process_container] is the last container, among those built
    from all the records (the record of self included), that carries the
    backup-process marker label; it is unset when no record carries it. *)
Theorem C4_backup_process_container_is_last_marked
    (HOSTNAME : option string) (all : list RawData) (rc : RunningContainers.t) :
  RunningContainers.__init__ HOSTNAME all = Ok rc ->
  exists cs, built_from all cs /\
    RunningContainers.backup_process_container rc
    = last (filter (fun c => Container.is_backup_process_container c = true) cs).
Proof.
  intros Hrc. destruct (discovery_inv HOSTNAME all rc Hrc) as (cs & Hcs & Hbpc & _).
  exists cs. split; assumption.
Qed.

Lemma C4_backup_process_container_is_last_marked_witness :
  match RunningContainers.__init__ (Some "1f2e3d")
          [sample.backup_record; sample.process_record] with
  | Ok rc =>
      exists cs, built_from [sample.backup_record; sample.process_record] cs /\
        RunningContainers.backup_process_container rc
        = last (filter (fun c => Container.is_backup_process_container c = true) cs)
  | Err _ => False
  end.
Proof.
  destruct (RunningContainers.__init__ (Some "1f2e3d")
              [sample.backup_record; sample.process_record]) as [rc|e] eqn:Hrc.
  - exact (C4_backup_process_container_is_last_marked _ _ _ Hrc).
  - exfalso. revert Hrc. apply is_Ok_not_Err. vm_compute. reflexivity.
Defined.

(** C4 (as stated) fails: with two marked records the second, not the
    first, becomes [backup_process_container]; and when the record of self
    carries the marker, self is the one recorded. *)
Lemma C4_counterexample :
  (fun rc => Container.id <$> RunningContainers.backup_process_container rc)
    <$> RunningContainers.__init__ (Some "1f2e3d")
          [sample.backup_record; sample.process_record; sample.process_record']
  = Ok (Some (Id sample.process_record')) /\
  (fun rc => (Container.id (RunningContainers.this_container rc),
              Container.id <$> RunningContainers.backup_process_container rc))
    <$> RunningContainers.__init__ (Some "1f2e9")
          [sample.backup_record; sample.process_record]
  = Ok (Id sample.process_record, Some (Id sample.process_record)).
Proof. split; vm_compute; reflexivity. Qed.

(** C6 (as amended). After a successful discovery, the peers are, in
    order, exactly the containers built from the records whose project name
    equals that of self, that are not one-off, and whose id differs from
    the id of self. The running state of a record is not looked at. *)
Theorem C6_peers (HOSTNAME : option string) (all : list RawData)
    (rc : RunningContainers.t) :
  RunningContainers.__init__ HOSTNAME all = Ok rc ->
  exists cs, built_from all cs /\
    RunningContainers.containers rc
    = filter (fun c =>
                Container.project_name c
                = Container.project_name (RunningContainers.this_container rc) /\
                Container.is_oneoff c = false /\
                Container.id c <> Container.id (RunningContainers.this_container rc))
             cs.
Proof.
  intros Hrc. destruct (discovery_inv HOSTNAME all rc Hrc) as (cs & Hcs & _ & Hpeers).
  exists cs. split; [exact Hcs|]. rewrite Hpeers.
  apply list_filter_iff. intros c. apply is_peer_of_spec.
Qed.

Lemma C6_peers_witness :
  match RunningContainers.__init__ (Some "1f2e3d")
          [sample.backup_record; sample.web_record; sample.foreign_process_record]
  with
  | Ok rc =>
      exists cs,
        built_from
          [sample.backup_record; sample.web_record; sample.foreign_process_record] cs /\
        RunningContainers.containers rc
        = filter (fun c =>
                    Container.project_name c
                    = Container.project_name (RunningContainers.this_container rc) /\
                    Container.is_oneoff c = false /\
                    Container.id c <> Container.id (RunningContainers.this_container rc))
                 cs
  | Err _ => False
  end.
Proof.
  destruct (RunningContainers.__init__ (Some "1f2e3d")
              [sample.backup_record; sample.web_record; sample.foreign_process_record])
    as [rc|e] eqn:Hrc.
  - exact (C6_peers _ _ _ Hrc).
  - exfalso. revert Hrc. apply is_Ok_not_Err. vm_compute. reflexivity.
Defined.

(** C6 (as stated) fails: a record of the same project that is not running
    joins the peers. *)
Lemma C6_counterexample :
  (fun rc => map (fun c => (Container.id c, Container.is_running c))
                 (RunningContainers.containers rc))
    <$> RunningContainers.__init__ (Some "1f2e3d")
          [sample.backup_record; sample.stopped_record]
  = Ok [(Id sample.stopped_record, VBool false)].
Proof. vm_compute. reflexivity. Qed.

(** ** The inner backup process *)

Ltac run_M :=
  unfold mbind, mret, M_bind, M_ret, cli.raise, lift, logger_error,
    logger_exception, try_except, extern in *;
  simpl in *.

Lemma calls_app (tr tr' : list event) : calls (tr ++ tr') = (calls tr ++ calls tr')%list.
Proof. unfold calls. apply omap_app. Qed.

(** A container with a database label gets one of the three subclasses. *)
Lemma instance_db {U : Utils} (c : Container.t) :
  Container.database_backup_enabled c = true ->
  Container.instance c = Some (db_kind c, c) /\ db_kind c <> Container.BaseContainer.
Proof.
  unfold Container.instance, db_kind, Container.database_backup_enabled.
  intros Hdb. rewrite Hdb.
  destruct (Container.mariadb_backup_enabled c); [split; [reflexivity|discriminate]|].
  destruct (Container.mysql_backup_enabled c); [split; [reflexivity|discriminate]|].
  simpl in Hdb. rewrite Hdb. split; [reflexivity|discriminate].
Qed.

Lemma backup_instance_extern {U : Utils} {D : Delegates}
    (k : Container.kind) (c : Container.t) :
  k <> Container.BaseContainer ->
  backup_instance (k, c) = extern (instance_backup k c).
Proof. destruct k; [contradiction | reflexivity..]. Qed.

Section Targets.
Context {U : Utils} {D : Delegates}.
(** The delegates raise ordinary exceptions only. *)
Hypothesis raises_Exception :
  forall tr c e, respond tr c = Raised e -> is_Exception e = true.

(** The volume backup always comes back, with [errors] telling whether
    it failed. *)
Lemma backup_volumes_spec (config : config.Config) (tr : list event) :
  exists tr',
    backup_volumes config tr = (Ok (existsb target_failed tr'), (tr ++ tr')%list) /\
    calls tr' = [restic_backup_files (config.repository config) "/volumes"].
Proof.
  unfold backup_volumes. run_M.
  set (files := restic_backup_files (config.repository config) "/volumes").
  destruct (respond tr files) as [v|e] eqn:Hr.
  - destruct (ne_zero v) eqn:Hv.
    + exists [Called files (Returned v);
              LoggedError "Backup command exited with non-zero code: %s"].
      simpl. rewrite Hv, <- app_assoc. split; reflexivity.
    + exists [Called files (Returned v)]. simpl. rewrite Hv. split; reflexivity.
  - rewrite (raises_Exception _ _ _ Hr).
    exists [Called files (Raised e); LoggedException e]. simpl.
    rewrite <- app_assoc. split; reflexivity.
Qed.

(** One pass of the database loop over a database target. *)
Lemma backup_database_step (c : Container.t) (errors : bool) (tr : list event) :
  Container.database_backup_enabled c = true ->
  exists tr',
    try_except
      (instance ← get_instance c;
       result ← backup_instance instance;
       if ne_zero result
       then logger_error "Backup command exited with non-zero code: %s" ;; mret true
       else mret errors)
      (fun ex => logger_exception ex ;; mret true) tr
    = (Ok (errors || existsb target_failed tr'), (tr ++ tr')%list) /\
    calls tr' = [db_call c].
Proof.
  intros Hdb. destruct (instance_db c Hdb) as [Hinst Hkind].
  unfold get_instance. rewrite Hinst.
  pose proof (backup_instance_extern (db_kind c) c Hkind) as Hext.
  unfold db_call. run_M. rewrite Hext. clear Hext. run_M.
  set (dump := instance_backup (db_kind c) c).
  destruct (respond tr dump) as [v|e] eqn:Hr.
  - destruct (ne_zero v) eqn:Hv.
    + exists [Called dump (Returned v);
              LoggedError "Backup command exited with non-zero code: %s"].
      simpl. rewrite Hv, <- app_assoc, orb_true_r. split; reflexivity.
    + exists [Called dump (Returned v)]. simpl.
      rewrite Hv, !orb_false_r. split; reflexivity.
  - rewrite (raises_Exception _ _ _ Hr).
    exists [Called dump (Raised e); LoggedException e]. simpl.
    rewrite <- app_assoc, orb_true_r. split; reflexivity.
Qed.

(** The database loop attempts every database target, in order, and
    accumulates the failures. *)
Lemma backup_databases_spec (l : list Container.t) (errors : bool) (tr : list event) :
  exists tr',
    backup_databases l errors tr
    = (Ok (errors || existsb target_failed tr'), (tr ++ tr')%list) /\
    calls tr'
    = map db_call (filter (fun c => Container.database_backup_enabled c = true) l).
Proof.
  revert errors tr. induction l as [|c l IH]; intros errors tr.
  - exists []. simpl. rewrite app_nil_r, orb_false_r. split; reflexivity.
  - simpl. destruct (Container.database_backup_enabled c) eqn:Hdb.
    + destruct (backup_database_step c errors tr Hdb) as (tr1 & Hstep & Hcalls1).
      unfold mbind at 1. unfold M_bind at 1. rewrite Hstep.
      destruct (IH (errors || existsb target_failed tr1) (tr ++ tr1)%list)
        as (tr2 & Hrest & Hcalls2).
      rewrite Hrest. exists (tr1 ++ tr2)%list.
      rewrite existsb_app, orb_assoc, app_assoc, calls_app, Hcalls1, Hcalls2.
      rewrite filter_cons_True by exact Hdb. split; reflexivity.
    + unfold mbind at 1. unfold M_bind at 1. unfold mret at 1. unfold M_ret at 1.
      destruct (IH errors tr) as (tr2 & Hrest & Hcalls2).
      rewrite Hrest. exists tr2. rewrite Hcalls2.
      rewrite filter_cons_False by (rewrite Hdb; discriminate). split; reflexivity.
Qed.

End Targets.

(** Whatever [cleanup] and the exit test after it do, they add no backup
    target to the trace. *)
Lemma cleanup_trace {U : Utils} {D : Delegates} (config : config.Config)
    (tr : list event) :
  exists r tr',
    (result ← cleanup config;
     if ne_zero result then cli.raise (SystemExit 1) else mret tt) tr
    = (r, (tr ++ tr')%list) /\
    existsb target_failed tr' = false.
Proof.
  unfold cleanup. run_M.
  set (f := restic_forget _ _ _ _ _). set (p := restic_prune _).
  destruct (respond tr f) as [v1|e1] eqn:Hf.
  - destruct (respond (tr ++ [Called f (Returned v1)]) p) as [v2|e2] eqn:Hp.
    + destruct (eq_zero v1 && eq_zero v2); simpl;
        eexists; exists [Called f (Returned v1); Called p (Returned v2)];
        rewrite <- app_assoc; split; reflexivity.
    + eexists. exists [Called f (Returned v1); Called p (Raised e2)].
      rewrite <- app_assoc. split; reflexivity.
  - eexists. exists [Called f (Raised e1)]. split; reflexivity.
Qed.

(** The exit test after [cleanup] reads a success flag as an exit code:
    when both calls come back, the process exits with 1 exactly when both
    returned 0. *)
Lemma cleanup_exit_inverted {U : Utils} {D : Delegates} (config : config.Config)
    (tr : list event) (v1 v2 : value) :
  let f := restic_forget (config.repository config) (config.keep_daily config)
             (config.keep_weekly config) (config.keep_monthly config)
             (config.keep_yearly config) in
  let p := restic_prune (config.repository config) in
  respond tr f = Returned v1 ->
  respond (tr ++ [Called f (Returned v1)]) p = Returned v2 ->
  ((result ← cleanup config;
    if ne_zero result then cli.raise (SystemExit 1) else mret tt) tr).1
  = if eq_zero v1 && eq_zero v2 then Err (SystemExit 1) else Ok tt.
Proof.
  intros f p Hf Hp. unfold cleanup. run_M. fold f p. rewrite Hf, Hp.
  destruct (eq_zero v1 && eq_zero v2); reflexivity.
Qed.

(** Without a recorded backup-process container the inner command logs the
    configuration error and returns, calling no delegate. *)
Lemma guard_closed {U : Utils} {D : Delegates} (config : config.Config)
    (rc : RunningContainers.t) :
  RunningContainers.backup_process_container rc = None ->
  exists msg, start_backup_process config rc [] = (Ok tt, [LoggedError msg]).
Proof.
  intros Hnone. unfold start_backup_process. rewrite Hnone. simpl.
  eexists. reflexivity.
Qed.

(** With a backup-process container recorded, the guard of
    [start_backup_process] lets the run through: the comparison with self
    is chained with [is False] and never holds. *)
Lemma guard_open {U : Utils} {D : Delegates} (config : config.Config)
    (rc : RunningContainers.t) :
  is_Some (RunningContainers.backup_process_container rc) ->
  start_backup_process config rc
  = (status config rc ;;
     errors ← backup_volumes config;
     errors ← backup_databases (RunningContainers.containers_for_backup rc) errors;
     if (errors : bool) then cli.raise (SystemExit 1)
     else match last (RunningContainers.containers_for_backup rc) with
          | None => cli.raise (UnboundLocalError "container")
          | Some container =>
              result ← cleanup config;
              if ne_zero result then cli.raise (SystemExit 1) else mret tt
          end).
Proof.
  intros [bpc Hbpc]. unfold start_backup_process. rewrite Hbpc.
  unfold is_False. simpl. rewrite andb_false_r. reflexivity.
Qed.

(** C7. In the inner backup process, once the guard and the status report
    are passed, and with delegates that raise ordinary exceptions only: the
    volume backup is called, then the database backup of every peer with a
    database label, in order, whatever the outcome of the calls before it;
    and if any of these targets returned a non-zero code or raised, the
    process ends with [exit(1)] and neither [forget] nor [prune] is
    called ([rest], the calls after the targets, is empty). *)
Theorem C7_every_target_attempted {U : Utils} {D : Delegates}
    (config : config.Config) (rc : RunningContainers.t) (tr0 : list event) :
  (forall tr c e, respond tr c = Raised e -> is_Exception e = true) ->
  is_Some (RunningContainers.backup_process_container rc) ->
  status config rc [] = (Ok tt, tr0) ->
  exists r tr1 rest,
    start_backup_process config rc [] = (r, (tr0 ++ tr1)%list) /\
    calls tr1 = (restic_backup_files (config.repository config) "/volumes"
                 :: map db_call (db_targets rc) ++ rest)%list /\
    (existsb target_failed tr1 = true -> r = Err (SystemExit 1) /\ rest = []).
Proof.
  intros Hexc Hbpc Hstatus. rewrite (guard_open config rc Hbpc).
  unfold mbind at 1. unfold M_bind at 1. rewrite Hstatus.
  destruct (backup_volumes_spec Hexc config tr0) as (trv & Hv & Hcv).
  unfold mbind at 1. unfold M_bind at 1. rewrite Hv.
  destruct (backup_databases_spec Hexc (RunningContainers.containers_for_backup rc)
              (existsb target_failed trv) (tr0 ++ trv)%list) as (trd & Hd & Hcd).
  unfold mbind at 1. unfold M_bind at 1. rewrite Hd.
  fold (db_targets rc) in Hcd.
  destruct (existsb target_failed trv || existsb target_failed trd) eqn:Herr.
  - exists (Err (SystemExit 1)), (trv ++ trd)%list, [].
    rewrite app_assoc, calls_app, Hcv, Hcd, app_nil_r. auto.
  - destruct (last (RunningContainers.containers_for_backup rc)) as [container|].
    + destruct (cleanup_trace config ((tr0 ++ trv) ++ trd)%list)
        as (r & trc & Hc & Hnone).
      rewrite Hc. exists r, (trv ++ trd ++ trc)%list, (calls trc).
      rewrite !calls_app, Hcv, Hcd, !existsb_app, Hnone, orb_false_r, Herr.
      rewrite !app_assoc. repeat split; discriminate.
    + exists (Err (UnboundLocalError "container")), (trv ++ trd)%list, [].
      rewrite existsb_app, Herr, app_assoc, calls_app, Hcv, Hcd, app_nil_r.
      repeat split; discriminate.
Qed.

Example group_discovered :
  RunningContainers.__init__ (Some "1f2e9")
    [sample.web_record; sample.mysql_record; sample.process_record]
  = Ok sample.group.
Proof. vm_compute. reflexivity. Qed.

Lemma C7_every_target_attempted_witness :
  exists r tr1 rest,
    start_backup_process (U := sample.utils) (D := sample.volumes_raise)
      sample.settings sample.group []
    = (r, ([Called (instance_ping Container.MysqlContainer sample.mysql)
                   (Returned (VInt 0))] ++ tr1)%list) /\
    calls tr1 = (restic_backup_files (config.repository sample.settings) "/volumes"
                 :: map (db_call (U := sample.utils))
                        (db_targets (U := sample.utils) sample.group) ++ rest)%list /\
    (existsb target_failed tr1 = true -> r = Err (SystemExit 1) /\ rest = []).
Proof.
  apply (C7_every_target_attempted (U := sample.utils) (D := sample.volumes_raise)
           sample.settings sample.group).
  - intros tr c e. destruct c; simpl; intros Hr; inversion Hr; reflexivity.
  - eexists. reflexivity.
  - vm_compute. reflexivity.
Defined.

(** The same run, spelled out: the volume backup raises, the database is
    still dumped, the process exits with 1 and nothing is pruned. *)
Example volume_failure_run :
  let run := start_backup_process (U := sample.utils) (D := sample.volumes_raise)
               sample.settings sample.group [] in
  run.1 = Err (SystemExit 1) /\
  calls run.2
  = [instance_ping Container.MysqlContainer sample.mysql;
     restic_backup_files (VStr "/repo") "/volumes";
     instance_backup Container.MysqlContainer sample.mysql].
Proof. split; vm_compute; reflexivity. Qed.

(** C3 (the code at the failing inputs). The spawned process of project
    [app] next to the [web] service, with delegates that always return 0:
    no target fails, forget and prune return 0, and the process exits with
    status 1. With [forget] returning 1 instead, it exits with status 0.
    With no peer to back up, the variable handed to [cleanup] was never
    bound and the process dies of the [UnboundLocalError], before any
    cleanup call. *)
Theorem C3_exit_status_inverted :
  (fun rc =>
     let run := start_backup_process (U := sample.utils) (D := sample.all_succeed)
                  sample.settings rc [] in
     (exit_status run.1, existsb target_failed run.2))
    <$> RunningContainers.__init__ (Some "1f2e9")
          [sample.web_record; sample.process_record]
  = Ok (1%Z, false) /\
  (fun rc =>
     let run := start_backup_process (U := sample.utils) (D := sample.forget_fails)
                  sample.settings rc [] in
     (exit_status run.1, existsb target_failed run.2))
    <$> RunningContainers.__init__ (Some "1f2e9")
          [sample.web_record; sample.process_record]
  = Ok (0%Z, false) /\
  (fun rc =>
     let run := start_backup_process (U := sample.utils) (D := sample.all_succeed)
                  sample.settings rc [] in
     (run.1, length (calls run.2)))
    <$> RunningContainers.__init__ (Some "1f2e9") [sample.process_record]
  = Ok (Err (UnboundLocalError "container"), 1).
Proof. repeat split; vm_compute; reflexivity. Qed.

(** The volume backup is the first thing the backup phase does. *)
Lemma backup_volumes_first {U : Utils} {D : Delegates} (config : config.Config)
    (tr : list event) :
  exists r o logs,
    backup_volumes config tr
    = (r, (tr ++ Called (restic_backup_files (config.repository config) "/volumes") o
              :: logs)%list).
Proof.
  unfold backup_volumes. run_M.
  set (files := restic_backup_files (config.repository config) "/volumes").
  destruct (respond tr files) as [v|e].
  - destruct (ne_zero v).
    + exists (Ok true), (Returned v),
        [LoggedError "Backup command exited with non-zero code: %s"].
      rewrite <- app_assoc. reflexivity.
    + exists (Ok false), (Returned v), []. reflexivity.
  - destruct (is_Exception e).
    + exists (Ok true), (Raised e), [LoggedException e].
      rewrite <- app_assoc. reflexivity.
    + exists (Err e), (Raised e), []. reflexivity.
Qed.

(** C1 (the code at the failing input). The backup container of project
    [app] runs the inner command itself while the backup-process container
    of another project is up: self is not the recorded backup-process
    container, and yet the command goes on to the volume backup. *)
Theorem C1_runs_outside_the_backup_process {U : Utils} {D : Delegates}
    (config : config.Config) :
  match RunningContainers.__init__ (Some "1f2e3d")
          [sample.backup_record; sample.foreign_process_record] with
  | Ok rc =>
      Container.__eq__ (RunningContainers.this_container rc)
                       (RunningContainers.backup_process_container rc) = false /\
      exists o rest,
        (start_backup_process config rc []).2
        = Called (restic_backup_files (config.repository config) "/volumes") o :: rest
  | Err _ => False
  end.
Proof.
  pose (all := [sample.backup_record; sample.foreign_process_record]).
  assert ((fun rc => (Container.__eq__ (RunningContainers.this_container rc)
                        (RunningContainers.backup_process_container rc),
                      Container.id <$> RunningContainers.backup_process_container rc,
                      length (RunningContainers.containers rc)))
            <$> RunningContainers.__init__ (Some "1f2e3d") all
          = Ok (false, Some (Id sample.foreign_process_record), 0)) as Hfacts
    by (vm_compute; reflexivity).
  fold all. destruct (RunningContainers.__init__ (Some "1f2e3d") all) as [rc|e];
    [|discriminate Hfacts].
  injection Hfacts as Heq Hbpc Hpeers. split; [exact Heq|].
  assert (is_Some (RunningContainers.backup_process_container rc)) as Hsome
    by (destruct (RunningContainers.backup_process_container rc);
        [eauto | discriminate Hbpc]).
  rewrite (guard_open config rc Hsome).
  unfold status, RunningContainers.containers_for_backup.
  destruct (RunningContainers.containers rc); [|discriminate Hpeers].
  rewrite filter_nil. simpl.
  destruct (backup_volumes_first config []) as (r & o & logs & Hv).
  exists o. unfold mbind, M_bind, mret, M_ret. rewrite Hv.
  destruct r as [[|]|e]; eexists; reflexivity.
Qed.

(** ** The outer backup command *)

Lemma last_filter_is_Some {A} (P : A -> Prop) `{forall x, Decision (P x)} (l : list A) :
  is_Some (last (filter P l)) <-> Exists P l.
Proof.
  induction l as [|x l IH].
  - rewrite filter_nil. split; [intros [y Hy]; discriminate | intros He; inversion He].
  - rewrite Exists_cons. destruct (decide (P x)) as [Hx|Hx].
    + rewrite filter_cons_True by exact Hx. rewrite last_cons.
      split; [auto|]. intros _. destruct (last (filter P l)); eauto.
    + rewrite filter_cons_False by exact Hx. rewrite IH. tauto.
Qed.

(** With the guard closed the command raises before doing anything. *)
Lemma backup_guard_closed {U : Utils} {D : Delegates} (config : config.Config)
    (rc : RunningContainers.t) :
  RunningContainers.backup_process_running rc = true ->
  backup config rc [] = (Err (ValueError "Backup process already running"), []).
Proof. intros Hrun. unfold backup. rewrite Hrun. reflexivity. Qed.




(** The two sides of the guard on concrete groups. *)
Example backup_already_running :
  (fun rc => backup (U := sample.utils) (D := sample.all_succeed) sample.settings rc [])
    <$> RunningContainers.__init__ (Some "1f2e3d")
          [sample.backup_record; sample.web_record; sample.process_record]
  = Ok (Err (ValueError "Backup process already running"), []).
Proof. vm_compute. reflexivity. Qed.

Example backup_spawns :
  (fun rc =>
     let run := backup (U := sample.utils) (D := sample.all_succeed)
                  sample.settings rc [] in
     (run.1, map (fun c => match c with
                           | restic_init_repo _ => "init_repo"
                           | backup_runner_run _ command _ _ _ _ => command
                           | _ => "other"
                           end) (calls run.2)))
    <$> RunningContainers.__init__ (Some "1f2e3d")
          [sample.backup_record; sample.web_record; sample.mysql_record]
  = Ok (Ok tt, ["init_repo"; "restic-compose-backup start-backup-process"]).
Proof. vm_compute. reflexivity. Qed.

(** * Further properties of the code *)

(** ** Pattern parsing *)

Lemma concat_cons_char (sep : string) (c : ascii) (w : string) (ws : list string) :
  String.concat sep (String c w :: ws) = String c (String.concat sep (w :: ws)).
Proof. destruct ws; reflexivity. Qed.

(** Joining the pieces of a split with the separator gives the string
    back. *)
Lemma split_concat (sep : ascii) (s : string) :
  String.concat (String sep "") (split sep s) = s.
Proof.
  induction s as [|c s IH]; [reflexivity|]. simpl.
  destruct (Ascii.eqb c sep) eqn:Hc.
  - apply Ascii.eqb_eq in Hc. subst c.
    destruct (split sep s) as [|w ws] eqn:Hs; [destruct (split_not_nil _ _ Hs)|].
    change (String sep (String.concat (String sep "") (w :: ws)) = String sep s).
    rewrite IH. reflexivity.
  - destruct (split sep s) as [|w ws] eqn:Hs; [destruct (split_not_nil _ _ Hs)|].
    rewrite concat_cons_char, IH. reflexivity.
Qed.

(** No piece of a split contains the separator. *)
Lemma split_no_sep (sep : ascii) (s : string) :
  Forall (fun p => contains (String sep "") p = false) (split sep s).
Proof.
  induction s as [|c s IH]; simpl.
  - constructor; [reflexivity | constructor].
  - destruct (Ascii.eqb c sep) eqn:Hc.
    + constructor; [reflexivity | exact IH].
    + destruct (split sep s) as [|w ws]; [repeat constructor|].
      * simpl. destruct (ascii_dec sep c) as [->|_]; [|reflexivity].
        rewrite Ascii.eqb_refl in Hc. discriminate Hc.
      * inversion IH as [|? ? Hw Hws]; subst. constructor; [|exact Hws].
        rewrite contains_unfold. rewrite Hw, orb_false_r. simpl.
        destruct (ascii_dec sep c) as [->|_]; [|reflexivity].
        rewrite Ascii.eqb_refl in Hc. discriminate Hc.
Qed.

Lemma lstrip_empty (s : string) : lstrip s = "" <-> only_space s.
Proof.
  unfold only_space. induction s as [|c s IH]; simpl.
  - split; [constructor | reflexivity].
  - destruct (isspace c) eqn:Hc.
    + rewrite IH. split; [constructor; assumption | inversion 1; assumption].
    + split; [discriminate | inversion 1; congruence].
Qed.

Lemma rstrip_empty (s : string) : rstrip s = "" <-> only_space s.
Proof.
  unfold only_space. induction s as [|c s IH]; simpl.
  - split; [constructor | reflexivity].
  - destruct (rstrip s) as [|a r].
    + destruct (isspace c) eqn:Hc.
      * split; [constructor; [exact Hc | apply IH; reflexivity] | reflexivity].
      * split; [discriminate | inversion 1; congruence].
    + split; [discriminate|]. inversion 1 as [|? ? _ Hs]; subst.
      apply IH in Hs. discriminate Hs.
Qed.

Lemma lstrip_only_space (s : string) : only_space (lstrip s) -> only_space s.
Proof.
  unfold only_space. induction s as [|c s IH]; simpl; [auto|].
  destruct (isspace c) eqn:Hc; [|auto].
  intros Hs. constructor; [exact Hc | exact (IH Hs)].
Qed.

Lemma strip_empty (s : string) : strip s = "" <-> only_space s.
Proof.
  unfold strip. rewrite rstrip_empty. split.
  - apply lstrip_only_space.
  - intros Hs. apply lstrip_empty in Hs. rewrite Hs. constructor.
Qed.

(** X1. [_parse_pattern] gives no filter ([None]) exactly when the label is
    absent, empty, or made of white space only. *)
Theorem X1_parse_pattern_none (v : option string) :
  Container._parse_pattern v = None <->
  match v with
  | None => True
  | Some s => only_space s
  end.
Proof.
  unfold Container._parse_pattern. destruct v as [s|]; [|tauto].
  destruct (String.eqb s "") eqn:He.
  - apply String.eqb_eq in He. subst s. split; [constructor | reflexivity].
  - rewrite <- strip_empty.
    destruct (strip s) as [|c r]; simpl; split; try reflexivity; discriminate.
Qed.

(** X2. When [_parse_pattern] returns a list, joining its patterns with
    commas gives back the label stripped of surrounding white space, no
    pattern contains a comma, and the list is not empty. Patterns are not
    stripped one by one. *)
Theorem X2_parse_pattern_round_trip (s : string) (patterns : list string) :
  Container._parse_pattern (Some s) = Some patterns ->
  String.concat "," patterns = strip s /\
  Forall (fun p => contains "," p = false) patterns /\
  patterns <> [].
Proof.
  unfold Container._parse_pattern.
  destruct (String.eqb s ""); [discriminate|].
  destruct (String.length (strip s) =? 0)%nat; [discriminate|].
  intros [= <-]. split; [apply split_concat|]. split; [apply split_no_sep|].
  apply split_not_nil.
Qed.

Lemma X2_parse_pattern_round_trip_witness :
  String.concat "," ["media"; " data"] = strip "  media, data " /\
  Forall (fun p => contains "," p = false) ["media"; " data"] /\
  ["media"; " data"] <> [].
Proof. apply (X2_parse_pattern_round_trip "  media, data "). reflexivity. Defined.

(** ** Mount filtering: edge cases *)

Lemma contains_empty (s : string) : contains "" s = true.
Proof. destruct s; reflexivity. Qed.

Lemma matches_some_empty (patterns : list string) (m : Mount.t) :
  "" ∈ patterns -> is_Some (Mount.source m) -> matches_some patterns m.
Proof.
  intros Hin [src Hsrc]. unfold matches_some. apply Exists_exists.
  exists "". split; [exact Hin|]. exists src, "", src. auto.
Qed.

Lemma filter_all {A} (P : A -> Prop) `{forall x, Decision (P x)} (l : list A) :
  Forall P l -> filter P l = l.
Proof.
  induction 1 as [|x l Hx _ IH]; [reflexivity|].
  rewrite filter_cons_True by exact Hx. rewrite IH. reflexivity.
Qed.

Lemma filter_none {A} (P : A -> Prop) `{forall x, Decision (P x)} (l : list A) :
  Forall (fun x => ~ P x) l -> filter P l = [].
Proof.
  induction 1 as [|x l Hx _ IH]; [reflexivity|].
  rewrite filter_cons_False by exact Hx. exact IH.
Qed.

Lemma patterns_set_elem (ps : list string) (p : string) :
  p ∈ ps -> Container.patterns_set (Some ps) = Some ps.
Proof. destruct ps; [inversion 1 | reflexivity]. Qed.

(** X3. An empty pattern in the include list (as a trailing or doubled
    comma in the label leaves one) matches every source: [filter_mounts]
    then returns all the mounts. *)
Theorem X3_include_empty_pattern_keeps_all (c : Container.t) (patterns : list string) :
  Forall (fun m => is_Some (Mount.source m)) (Container._mounts c) ->
  Container._include c = Some patterns ->
  "" ∈ patterns ->
  Container.filter_mounts c = Ok (Container._mounts c).
Proof.
  intros Hsrc Hinc Hin. unfold Container.filter_mounts.
  rewrite Hinc, (patterns_set_elem _ _ Hin), select_spec by exact Hsrc.
  simpl. f_equal. apply filter_all.
  eapply Forall_impl; [exact Hsrc|]. intros m Hm. simpl.
  apply bool_decide_eq_true. exact (matches_some_empty _ _ Hin Hm).
Qed.

Lemma X3_include_empty_pattern_keeps_all_witness :
  Container.filter_mounts
    (sample.container "aa11bb22cc33" sample.running
       [("restic-compose-backup.volumes.include", "media,")]
       [sample.bind_mount "/srv/files/media" "/srv/media";
        sample.bind_mount "/srv/files/stuff" "/srv/stuff"]
       (Container._parse_pattern (Some "media,")) None)
  = Ok [Mount.__init__ (sample.bind_mount "/srv/files/media" "/srv/media");
        Mount.__init__ (sample.bind_mount "/srv/files/stuff" "/srv/stuff")].
Proof.
  match goal with
  | |- Container.filter_mounts ?c = _ =>
      apply (X3_include_empty_pattern_keeps_all c ["media"; ""])
  end.
  - repeat (constructor; [eexists; reflexivity|]). constructor.
  - reflexivity.
  - apply list_elem_of_In. simpl. auto.
Defined.

(** X4. An empty pattern in the exclude list, with no include list set,
    excludes every mount: [filter_mounts] returns the empty list. *)
Theorem X4_exclude_empty_pattern_drops_all (c : Container.t) (patterns : list string) :
  Forall (fun m => is_Some (Mount.source m)) (Container._mounts c) ->
  Container.patterns_set (Container._include c) = None ->
  Container._exclude c = Some patterns ->
  "" ∈ patterns ->
  Container.filter_mounts c = Ok [].
Proof.
  intros Hsrc Hinc Hexc Hin. unfold Container.filter_mounts.
  rewrite Hinc, Hexc, (patterns_set_elem _ _ Hin), select_spec by exact Hsrc.
  simpl. f_equal. apply filter_none.
  eapply Forall_impl; [exact Hsrc|]. intros m Hm. simpl.
  rewrite (bool_decide_eq_true_2 _ (matches_some_empty _ _ Hin Hm)). discriminate.
Qed.

Lemma X4_exclude_empty_pattern_drops_all_witness :
  Container.filter_mounts
    (sample.container "aa11bb22cc33" sample.running
       [("restic-compose-backup.volumes.exclude", ",stuff")]
       [sample.bind_mount "/srv/files/media" "/srv/media";
        sample.bind_mount "/srv/files/stuff" "/srv/stuff"]
       None (Container._parse_pattern (Some ",stuff")))
  = Ok [].
Proof.
  match goal with
  | |- Container.filter_mounts ?c = _ =>
      apply (X4_exclude_empty_pattern_drops_all c [""; "stuff"])
  end.
  - repeat (constructor; [eexists; reflexivity|]). constructor.
  - reflexivity.
  - reflexivity.
  - apply list_elem_of_In. simpl. auto.
Defined.

Lemma any_pattern_no_source (p : string) (ps : list string) (m : Mount.t) :
  Mount.source m = None -> Container.any_pattern (p :: ps) m = Err TypeError.
Proof.
  intros Hnone. simpl. unfold Container.pattern_in_source. rewrite Hnone. reflexivity.
Qed.

Lemma select_no_source (keep_on : bool) (p : string) (ps : list string)
    (mounts filtered : list Mount.t) :
  Exists (fun m => Mount.source m = None) mounts ->
  Container.select keep_on (p :: ps) mounts filtered = Err TypeError.
Proof.
  revert filtered. induction mounts as [|m ms IH]; intros filtered Hex.
  - inversion Hex.
  - cbn [Container.select].
    destruct (Mount.source m) as [src|] eqn:Hsrc.
    + rewrite any_pattern_spec by (rewrite Hsrc; eauto). simpl.
      apply IH. inversion Hex as [? ? Hm|]; [congruence | assumption].
    + rewrite (any_pattern_no_source p ps m Hsrc). reflexivity.
Qed.

(** X5. With an include or an exclude list set, one mount without a source
    anywhere in the list makes [filter_mounts] raise a [TypeError]; no
    partial result is returned. *)
Theorem X5_filter_mounts_needs_sources (c : Container.t) :
  is_Some (Container.patterns_set (Container._include c)) \/
  is_Some (Container.patterns_set (Container._exclude c)) ->
  Exists (fun m => Mount.source m = None) (Container._mounts c) ->
  Container.filter_mounts c = Err TypeError.
Proof.
  intros Hset Hex. unfold Container.filter_mounts.
  assert (forall o l, Container.patterns_set o = Some l -> exists p ps, l = p :: ps)
    as Hcons.
  { intros [[|p ps]|] l; simpl; intros [= <-]. eauto. }
  destruct (Container.patterns_set (Container._include c)) as [inc|] eqn:Hinc.
  - destruct (Hcons _ _ Hinc) as (p & ps & ->). apply select_no_source, Hex.
  - destruct Hset as [[l Hl]|[exc Hexc]]; [discriminate Hl|].
    rewrite Hexc. destruct (Hcons _ _ Hexc) as (p & ps & ->).
    apply select_no_source, Hex.
Qed.

Lemma X5_filter_mounts_needs_sources_witness :
  Container.filter_mounts
    (sample.container "aa11bb22cc33" sample.running
       [("restic-compose-backup.volumes.include", "media")]
       [sample.bind_mount "/srv/files/media" "/srv/media"; sample.sourceless_mount]
       (Some ["media"]) None)
  = Err TypeError.
Proof.
  apply X5_filter_mounts_needs_sources.
  - left. eexists. reflexivity.
  - apply Exists_cons_tl, Exists_cons_hd. reflexivity.
Defined.

Lemma select_sublist (keep_on : bool) (patterns : list string)
    (mounts filtered l : list Mount.t) :
  Container.select keep_on patterns mounts filtered = Ok l ->
  exists l', l = (filtered ++ l')%list /\ sublist l' mounts.
Proof.
  revert filtered. induction mounts as [|m ms IH]; intros filtered; cbn [Container.select].
  - intros [= <-]. exists []. rewrite app_nil_r. split; [reflexivity | constructor].
  - destruct (Container.any_pattern patterns m) as [hit|e]; simpl; [|discriminate].
    intros Hsel. destruct (IH _ Hsel) as (l' & -> & Hsub).
    destruct (Bool.eqb hit keep_on).
    + exists (m :: l'). rewrite <- app_assoc. split; [reflexivity|].
      apply sublist_skip, Hsub.
    + exists l'. split; [reflexivity|]. apply sublist_cons, Hsub.
Qed.

(** X6. Whatever [filter_mounts] returns is a sublist of the container's
    mounts: it never adds, repeats or reorders a mount. *)
Theorem X6_filter_mounts_sublist (c : Container.t) (l : list Mount.t) :
  Container.filter_mounts c = Ok l -> sublist l (Container._mounts c).
Proof.
  unfold Container.filter_mounts.
  destruct (Container.patterns_set (Container._include c)) as [inc|].
  - intros Hsel. destruct (select_sublist _ _ _ _ _ Hsel) as (l' & -> & Hsub).
    exact Hsub.
  - destruct (Container.patterns_set (Container._exclude c)) as [exc|].
    + intros Hsel. destruct (select_sublist _ _ _ _ _ Hsel) as (l' & -> & Hsub).
      exact Hsub.
    + intros [= <-]. reflexivity.
Qed.

Lemma X6_filter_mounts_sublist_witness :
  sublist [Mount.__init__ (sample.bind_mount "/srv/files/media" "/srv/media")]
          (Container._mounts sample.web).
Proof. apply X6_filter_mounts_sublist. vm_compute. reflexivity. Defined.

(** ** Accessors of a container *)

(** X7. [instance] always returns an object: the implicit [return None]
    after the three tests cannot be reached. A container without a database
    label is returned as it is; otherwise the subclass is MariaDB if its
    label is true, else MySQL if its label is true, else PostgreSQL. *)
Theorem X7_instance_never_none {U : Utils} (c : Container.t) :
  Container.instance c
  = Some (if Container.database_backup_enabled c then db_kind c
          else Container.BaseContainer, c).
Proof.
  destruct (Container.database_backup_enabled c) eqn:Hdb.
  - exact (proj1 (instance_db c Hdb)).
  - unfold Container.instance. rewrite Hdb. reflexivity.
Qed.

(** Filling a dict in a loop: a key holds what the last entry with that
    key gave it. *)
Lemma fold_insert_lookup {K V A} `{Countable K} (key : A -> K) (val : A -> V)
    (l : list A) (d : gmap K V) (k : K) :
  fold_left (fun d x => <[key x := val x]> d) l d !! k
  = match last (filter (fun x => key x = k) l) with
    | Some x => Some (val x)
    | None => d !! k
    end.
Proof.
  revert d. induction l as [|x l IH]; intros d; [reflexivity|].
  simpl. rewrite IH. destruct (decide (key x = k)) as [Hk|Hk].
  - rewrite filter_cons_True by exact Hk. rewrite last_cons.
    destruct (last (filter _ l)); [reflexivity|].
    rewrite Hk. apply lookup_insert_eq.
  - rewrite filter_cons_False by exact Hk.
    destruct (last (filter _ l)); [reflexivity|].
    apply lookup_insert_ne, Hk.
Qed.

Lemma str_find_ge (c : ascii) (s : string) : (-1 <= str_find c s)%Z.
Proof.
  induction s as [|a s IH]; simpl; [lia|].
  destruct (Ascii.eqb a c); [lia|].
  destruct (str_find c s <? 0)%Z eqn:Hr; [lia|]. apply Z.ltb_ge in Hr. lia.
Qed.

Lemma substring_prefix (a b : string) :
  String.substring 0 (String.length a) (a ++ b) = a.
Proof.
  induction a as [|c a IH]; simpl.
  - destruct b; reflexivity.
  - change (String c a ++ b) with (String c (a ++ b)). simpl. rewrite IH. reflexivity.
Qed.

Lemma substring_all (s : string) : String.substring 0 (String.length s) s = s.
Proof. induction s as [|c s IH]; simpl; [reflexivity | rewrite IH; reflexivity]. Qed.

Lemma substring_skip (a b : string) (m : nat) :
  String.substring (String.length a) m (a ++ b) = String.substring 0 m b.
Proof. induction a as [|c a IH]; [reflexivity | exact IH]. Qed.

Lemma string_app_length (a b : string) :
  String.length (a ++ b) = (String.length a + String.length b)%nat.
Proof.
  induction a as [|c a IH]; [reflexivity|].
  change (String c a ++ b) with (String c (a ++ b)). simpl. rewrite IH. reflexivity.
Qed.

Lemma string_app_assoc (a b c : string) : (a ++ b) ++ c = a ++ (b ++ c).
Proof.
  induction a as [|x a IH]; [reflexivity|].
  change (String x (a ++ b) ++ c = String x (a ++ b ++ c)).
  change (String x ((a ++ b) ++ c) = String x (a ++ b ++ c)). rewrite IH. reflexivity.
Qed.

(** The first equals sign of [k=v] is the one after [k] when [k] has
    none. *)
Lemma str_find_key (k v : string) :
  str_find "=" k = (-1)%Z ->
  str_find "=" (k ++ String "=" v) = Z.of_nat (String.length k).
Proof.
  induction k as [|a k IH]; [reflexivity|].
  change (String a k ++ String "=" v) with (String a (k ++ String "=" v)).
  cbn [str_find]. destruct (Ascii.eqb a "="); [discriminate|].
  pose proof (str_find_ge "=" k) as Hge.
  destruct (str_find "=" k <? 0)%Z eqn:Hr; [|intros; apply Z.ltb_ge in Hr; lia].
  apply Z.ltb_lt in Hr. intros _.
  rewrite IH by lia.
  destruct (Z.of_nat (String.length k) <? 0)%Z eqn:Hn; [apply Z.ltb_lt in Hn; lia|].
  cbn [String.length]. lia.
Qed.

(** X8. An environment entry [KEY=VALUE] whose key holds no equals sign is
    read back as that key and that value, also when the value itself holds
    equals signs. *)
Theorem X8_env_entry_round_trip (k v : string) :
  str_find "=" k = (-1)%Z ->
  Container.env_key (k ++ "=" ++ v) = k /\
  Container.env_value (k ++ "=" ++ v) = v.
Proof.
  intros Hk. unfold Container.env_key, Container.env_value, slice_from, slice,
    slice_index.
  change (k ++ "=" ++ v) with (k ++ String "=" v).
  rewrite (str_find_key k v Hk), string_app_length. cbn [String.length].
  set (n := String.length k). set (m := String.length v).
  split.
  - replace (0 <? 0)%Z with false by reflexivity.
    destruct (Z.of_nat n <? 0)%Z eqn:Hn; [apply Z.ltb_lt in Hn; lia|].
    replace (Z.to_nat (Z.min 0 (Z.of_nat (n + S m)))) with 0%nat by lia.
    replace (Z.to_nat (Z.min (Z.of_nat n) (Z.of_nat (n + S m))
                       - Z.min 0 (Z.of_nat (n + S m)))) with n by lia.
    apply substring_prefix.
  - destruct (Z.of_nat n + 1 <? 0)%Z eqn:Hn; [apply Z.ltb_lt in Hn; lia|].
    destruct (Z.of_nat (n + S m) <? 0)%Z eqn:Hm; [apply Z.ltb_lt in Hm; lia|].
    replace (Z.to_nat (Z.min (Z.of_nat n + 1) (Z.of_nat (n + S m))))
      with (String.length (k ++ "=")) by (rewrite string_app_length; simpl; lia).
    replace (Z.to_nat (Z.min (Z.of_nat (n + S m)) (Z.of_nat (n + S m))
                       - Z.min (Z.of_nat n + 1) (Z.of_nat (n + S m)))) with m by lia.
    replace (k ++ String "=" v) with ((k ++ "=") ++ v)
      by (rewrite string_app_assoc; reflexivity).
    rewrite substring_skip. apply substring_all.
Qed.

Lemma X8_env_entry_round_trip_witness :
  Container.env_key ("MYSQL_USER" ++ "=" ++ "root=admin") = "MYSQL_USER" /\
  Container.env_value ("MYSQL_USER" ++ "=" ++ "root=admin") = "root=admin".
Proof. apply X8_env_entry_round_trip. reflexivity. Defined.

(** X9. An environment entry without an equals sign is not skipped: since
    [find] answers -1, it is stored under the entry minus its last
    character, with the whole entry as its value. *)
Theorem X9_env_entry_without_equals (i : string) :
  str_find "=" i = (-1)%Z ->
  Container.env_key i = String.substring 0 (String.length i - 1) i /\
  Container.env_value i = i.
Proof.
  intros Hi. unfold Container.env_key, Container.env_value, slice_from, slice,
    slice_index. rewrite Hi.
  set (n := String.length i). split.
  - replace (0 <? 0)%Z with false by reflexivity.
    replace (-1 <? 0)%Z with true by reflexivity.
    replace (Z.to_nat (Z.min 0 (Z.of_nat n))) with 0%nat by lia.
    replace (Z.to_nat (Z.max 0 (-1 + Z.of_nat n) - Z.min 0 (Z.of_nat n)))
      with (n - 1)%nat by lia.
    reflexivity.
  - replace (-1 + 1 <? 0)%Z with false by reflexivity.
    destruct (Z.of_nat n <? 0)%Z eqn:Hn; [apply Z.ltb_lt in Hn; lia|].
    replace (Z.to_nat (Z.min (-1 + 1) (Z.of_nat n))) with 0%nat by lia.
    replace (Z.to_nat (Z.min (Z.of_nat n) (Z.of_nat n) - Z.min (-1 + 1) (Z.of_nat n)))
      with n by lia.
    apply substring_all.
Qed.

Lemma X9_env_entry_without_equals_witness :
  Container.env_key "PATH" = String.substring 0 (String.length "PATH" - 1) "PATH" /\
  Container.env_value "PATH" = "PATH".
Proof. apply X9_env_entry_without_equals. reflexivity. Defined.

(** X10. When the environment of a container is a list, [get_config_env]
    answers with the value of the last entry of that list whose key is the
    name asked for, and with [None] when no entry has that key; when the
    environment is [None] (the ['Env'] key of the config block holds
    [None]), [get_config_env] raises [TypeError]. *)
Theorem X10_get_config_env_last_wins (c : Container.t) (name : string) :
  Container.get_config_env c name
  = match Container.environment c with
    | Some env =>
        Ok (Container.env_value
              <$> last (filter (fun i => Container.env_key i = name) env))
    | None => Err TypeError
    end.
Proof.
  unfold Container.get_config_env.
  destruct (Container.environment c) as [env|]; [|reflexivity].
  rewrite fold_insert_lookup.
  destruct (last (filter _ env)); reflexivity.
Qed.

Example get_config_env_sample :
  Container.get_config_env sample.env_container "MYSQL_USER"
  = Ok (Some "root=admin") /\
  Container.get_config_env sample.env_container "PAT" = Ok (Some "PATH") /\
  Container.get_config_env sample.env_container "PATH" = Ok None.
Proof. repeat split; vm_compute; reflexivity. Qed.

(** The default of [environment] stands in for a missing ['Env'] key only:
    a block without the key has the empty environment, a block where the
    key holds [None] has none, and looking a name up in it raises. *)
Example environment_null_sample :
  Container.environment <$> Container.__init__ sample.no_env_record
  = Ok (Some []) /\
  (fun c => (Container.environment c, Container.get_config_env c "PATH"))
    <$> Container.__init__ sample.null_env_record
  = Ok (None, Err TypeError).
Proof. split; vm_compute; reflexivity. Qed.

(** X11. The [volumes] of a container map each source to the destination
    of the last mount with that source, always with mode [rw]; a source no
    mount has is not a key. *)
Theorem X11_volumes_lookup (c : Container.t) (src : option string) :
  Container.volumes c !! src
  = (fun m => (Mount.destination m, "rw"))
      <$> last (filter (fun m => Mount.source m = src) (Container._mounts c)).
Proof.
  pose proof (fold_insert_lookup Mount.source
                (fun m => (Mount.destination m, "rw"))
                (Container._mounts c) ∅ src) as Hl.
  rewrite lookup_empty in Hl.
  destruct (last (filter _ (Container._mounts c))); exact Hl.
Qed.

(** ** Discovery: what it needs and what it finds *)

Lemma prefix_substring (m : nat) (s : string) :
  String.prefix (String.substring 0 m s) s = true.
Proof.
  revert m. induction s as [|c s IH]; intros [|m]; try reflexivity.
  simpl. destruct (ascii_dec c c) as [_|Hc]; [apply IH | contradiction].
Qed.

Lemma startswith_hostname (s : string) : startswith s (slice s 0 12) = true.
Proof.
  unfold startswith, slice, slice_index.
  replace (0 <? 0)%Z with false by reflexivity.
  replace (Z.to_nat (Z.min 0 (Z.of_nat (String.length s)))) with 0%nat by lia.
  apply prefix_substring.
Qed.

(** X12. The host name of a container ([id[:12]]) identifies it: with
    [HOSTNAME] set to the host name of one of the records, and every record
    well formed, discovery succeeds and picks as self a record whose id
    starts with that host name. *)
Theorem X12_hostname_finds_self (all : list RawData) (d : RawData)
    (c : Container.t) (h : string) :
  Forall well_formed all ->
  d ∈ all ->
  Container.__init__ d = Ok c ->
  Container.hostname c = Ok h ->
  exists rc, RunningContainers.__init__ (Some h) all = Ok rc /\
    id_matches h (Container._data (RunningContainers.this_container rc)) = true.
Proof.
  intros Hall Hd Hc Hh.
  assert (id_matches h d = true) as Hm.
  { unfold Container.hostname, Container.id in Hh. rewrite (init_data d c Hc) in Hh.
    unfold id_matches. destruct (Id d) as [s|]; [|discriminate Hh].
    injection Hh as <-. apply startswith_hostname. }
  unfold RunningContainers.__init__.
  destruct (find_this_spec h all None Hall) as (r & Hr & Hlast).
  rewrite Hr. simpl.
  destruct (last (filter (fun d => id_matches h d = true) all)) as [d'|] eqn:Hl.
  - destruct Hlast as (c' & Hc' & ->).
    destruct (well_formed_built all Hall) as [cs Hcs].
    rewrite (gather_spec c' all cs None [] Hcs). simpl.
    eexists. split; [reflexivity|]. simpl. rewrite (init_data d' c' Hc').
    apply last_Some_elem_of in Hl. apply list_elem_of_filter in Hl. tauto.
  - apply last_None in Hl.
    assert (d ∈ filter (fun d => id_matches h d = true) all) as Hin
      by (apply list_elem_of_filter; auto).
    rewrite Hl in Hin. inversion Hin.
Qed.

Lemma X12_hostname_finds_self_witness :
  exists rc,
    RunningContainers.__init__ (Some "1f2e99999999")
      [sample.web_record; sample.mysql_record; sample.process_record] = Ok rc /\
    id_matches "1f2e99999999"
      (Container._data (RunningContainers.this_container rc)) = true.
Proof.
  apply (X12_hostname_finds_self _ sample.process_record sample.process).
  - repeat (constructor;
            [apply well_formed_check;
             [eexists; reflexivity | vm_compute; reflexivity]|]).
    constructor.
  - apply list_elem_of_In. simpl. auto.
  - vm_compute. reflexivity.
  - reflexivity.
Defined.

(** What the first loop needs to come back, and where its result is from. *)
Lemma find_this_inv (HOSTNAME : option string) (all : list RawData)
    (acc r : option Container.t) :
  RunningContainers.find_this HOSTNAME all acc = Ok r ->
  (all = [] \/ is_Some HOSTNAME) /\
  Forall (fun d => is_Some (Id d)) all /\
  forall c, r = Some c ->
    acc = Some c \/
    exists h d, HOSTNAME = Some h /\ d ∈ all /\
      Container.__init__ d = Ok c /\ id_matches h d = true.
Proof.
  revert acc. induction all as [|d rest IH]; intros acc; simpl.
  - intros [= <-]. repeat split; auto.
  - destruct (Id d) as [id|] eqn:Hid; [|discriminate].
    destruct HOSTNAME as [h|]; [|discriminate].
    destruct (startswith id h) eqn:Hs.
    + destruct (Container.__init__ d) as [c0|e] eqn:Hc0; simpl; [|discriminate].
      intros Hf. destruct (IH _ Hf) as (_ & Hids & Hfrom).
      split; [right; eauto|]. split; [constructor; eauto|].
      intros c Hr. destruct (Hfrom c Hr) as [[= <-]|(h' & d' & Hh & Hd' & Hrest)].
      * right. exists h, d. repeat split; [left | exact Hc0 |].
        unfold id_matches. rewrite Hid. exact Hs.
      * right. exists h', d'. split; [exact Hh|]. split; [right; exact Hd' | exact Hrest].
    + intros Hf. destruct (IH _ Hf) as (_ & Hids & Hfrom).
      split; [right; eauto|]. split; [constructor; eauto|].
      intros c Hr. destruct (Hfrom c Hr) as [Hacc|(h' & d' & Hh & Hd' & Hrest)].
      * left. exact Hacc.
      * right. exists h', d'. split; [exact Hh|]. split; [right; exact Hd' | exact Hrest].
Qed.

(** X13. Discovery succeeds only if [HOSTNAME] is set, every record
    carries an id and is accepted by the container constructor, and self
    was built from one of the records whose id starts with [HOSTNAME]: one
    malformed record anywhere makes the whole discovery fail. *)
Theorem X13_discovery_needs (HOSTNAME : option string) (all : list RawData)
    (rc : RunningContainers.t) :
  RunningContainers.__init__ HOSTNAME all = Ok rc ->
  exists h, HOSTNAME = Some h /\
    Forall well_formed all /\
    exists d, d ∈ all /\
      Container.__init__ d = Ok (RunningContainers.this_container rc) /\
      id_matches h d = true.
Proof.
  unfold RunningContainers.__init__.
  destruct (RunningContainers.find_this HOSTNAME all None) as [[this|]|e] eqn:Hf;
    simpl; try discriminate.
  destruct (RunningContainers.gather this all None []) as [r|e] eqn:Hg;
    simpl; [|discriminate].
  intros [= <-]. simpl.
  destruct (find_this_inv _ _ _ _ Hf) as (_ & Hids & Hfrom).
  destruct (Hfrom this eq_refl) as [Habs|(h & d & Hh & Hd & Hc & Hm)];
    [discriminate Habs|].
  exists h. split; [exact Hh|]. split; [|eauto].
  destruct (gather_built _ _ _ _ _ Hg) as [cs Hcs].
  clear - Hids Hcs. induction Hcs as [|d c rest cs Hc _ IH]; [constructor|].
  inversion Hids; subst. constructor; [split; eauto | auto].
Qed.

Lemma X13_discovery_needs_witness :
  exists h, Some "1f2e9" = Some h /\
    Forall well_formed [sample.web_record; sample.mysql_record; sample.process_record] /\
    exists d,
      d ∈ [sample.web_record; sample.mysql_record; sample.process_record] /\
      Container.__init__ d = Ok (RunningContainers.this_container sample.group) /\
      id_matches h d = true.
Proof. apply (X13_discovery_needs _ _ sample.group). vm_compute. reflexivity. Defined.

(** X14. [get_service] returns the first peer whose service label is the
    name asked for, and [None] when no peer has it. *)
Theorem X14_get_service_first (rc : RunningContainers.t) (name : string) :
  RunningContainers.get_service rc name
  = head (filter (fun c => Container.service_name c = Some name)
                 (RunningContainers.containers rc)).
Proof.
  unfold RunningContainers.get_service.
  induction (RunningContainers.containers rc) as [|c l IH]; [reflexivity|].
  simpl. destruct (opt_str_eqb (Container.service_name c) (Some name)) eqn:He.
  - apply opt_str_eqb_eq in He. rewrite filter_cons_True by exact He. reflexivity.
  - apply opt_str_eqb_neq in He. rewrite filter_cons_False by exact He. exact IH.
Qed.

(** ** Volume mappings for the backup process *)

(** X15. A container without the compose service label cannot have its
    volumes mapped: as soon as one mount passes the filter,
    [volumes_for_backup] raises a [TypeError], since [service_name] is
    [None] and cannot be joined to a path. *)
Theorem X15_volumes_for_backup_needs_service {U : Utils} (c : Container.t)
    (m : Mount.t) (ms : list Mount.t) (source_prefix mode : string) :
  Container._labels c !! "com.docker.compose.service" = None ->
  Container.filter_mounts c = Ok (m :: ms) ->
  Container.volumes_for_backup c source_prefix mode = Err TypeError.
Proof.
  intros Hlabel Hf. unfold Container.volumes_for_backup. rewrite Hf. simpl.
  unfold Container.backup_bind, Container.service_name.
  rewrite (get_label_absent c _ _ Hlabel). reflexivity.
Qed.

Lemma X15_volumes_for_backup_needs_service_witness :
  Container.volumes_for_backup (U := sample.utils) sample.nameless "/volumes" "ro"
  = Err TypeError.
Proof.
  apply (X15_volumes_for_backup_needs_service (U := sample.utils) sample.nameless
           (Mount.__init__ (sample.bind_mount "/srv/data" "/data")) []).
  - vm_compute. reflexivity.
  - reflexivity.
Defined.

(** The loop of [volumes_for_backup]: a source ends up with the bind of the
    last mount that has it. *)
Lemma volumes_for_backup_loop_lookup {U : Utils} (c : Container.t)
    (source_prefix mode : string) (ms : list Mount.t)
    (v0 vols : gmap (option string) (option string * string)) (src : option string) :
  Container.volumes_for_backup_loop c source_prefix mode ms v0 = Ok vols ->
  vols !! src
  = match last (filter (fun m => Mount.source m = src) ms) with
    | Some m =>
        match Container.backup_bind c source_prefix m with
        | Ok b => Some (Some b, mode)
        | Err _ => None
        end
    | None => v0 !! src
    end.
Proof.
  revert v0. induction ms as [|m ms IH]; intros v0; cbn [Container.volumes_for_backup_loop].
  - intros [= <-]. reflexivity.
  - destruct (Container.backup_bind c source_prefix m) as [b|e] eqn:Hb; simpl;
      [|discriminate].
    intros Hloop. rewrite (IH _ Hloop).
    destruct (decide (Mount.source m = src)) as [Hs|Hs].
    + rewrite filter_cons_True by exact Hs. rewrite last_cons.
      destruct (last (filter _ ms)); [reflexivity|].
      rewrite Hb, Hs. apply lookup_insert_eq.
    + rewrite filter_cons_False by exact Hs.
      destruct (last (filter _ ms)); [reflexivity|].
      apply lookup_insert_ne, Hs.
Qed.

(** X16. When [volumes_for_backup] returns, a source is mapped exactly when
    some mount that passed the filter has it, and then to the bind path of
    the last such mount, [source_prefix/service/stripped destination], with
    the mode that was asked for. *)
Theorem X16_volumes_for_backup_lookup {U : Utils} (c : Container.t)
    (source_prefix mode service : string) (ms : list Mount.t)
    (vols : gmap (option string) (option string * string)) (src : option string)
    (v : option string * string) :
  Container.service_name c = Some service ->
  Container.filter_mounts c = Ok ms ->
  Container.volumes_for_backup c source_prefix mode = Ok vols ->
  vols !! src = Some v <->
  exists m rel,
    last (filter (fun m => Mount.source m = src) ms) = Some m /\
    strip_root (Mount.destination m) = Ok rel /\
    v = (Some (path_join (path_join source_prefix service) rel), mode).
Proof.
  intros Hservice Hf Hv. unfold Container.volumes_for_backup in Hv.
  rewrite Hf in Hv. simpl in Hv.
  rewrite (volumes_for_backup_loop_lookup c source_prefix mode ms ∅ vols src Hv).
  rewrite lookup_empty. unfold Container.backup_bind. rewrite Hservice.
  destruct (last (filter _ ms)) as [m|].
  - destruct (strip_root (Mount.destination m)) as [rel|e] eqn:Hrel; simpl.
    + split.
      * intros [= <-]. exists m, rel. auto.
      * intros (m' & rel' & [= <-] & Hrel' & ->). congruence.
    + split; [discriminate|]. intros (m' & rel' & [= <-] & Hrel' & _). congruence.
  - split; [discriminate|]. intros (m' & rel' & Habs & _). discriminate.
Qed.

Lemma X16_volumes_for_backup_lookup_witness :
  sample.idle_mounts !! Some "/srv/files/media"
  = Some (Some "/volumes/web/srv/media", "ro") <->
  exists m rel,
    last (filter (fun m => Mount.source m = Some "/srv/files/media")
            [Mount.__init__ (sample.bind_mount "/srv/files/media" "/srv/media")])
    = Some m /\
    strip_root (Utils := sample.utils) (Mount.destination m) = Ok rel /\
    (Some "/volumes/web/srv/media", "ro")
    = (Some (path_join (Utils := sample.utils)
               (path_join (Utils := sample.utils) "/volumes" "web") rel), "ro").
Proof.
  apply (X16_volumes_for_backup_lookup (U := sample.utils) sample.web).
  - vm_compute. reflexivity.
  - vm_compute. reflexivity.
  - vm_compute. reflexivity.
Defined.

(** The loop of [generate_backup_mounts]: every entry comes from the
    volume mapping of a peer with the volume label. *)
Lemma generate_backup_mounts_loop_from {U : Utils} (dest_prefix : string)
    (l : list Container.t) (m0 m : gmap (option string) (option string * string))
    (src : option string) (v : option string * string) :
  RunningContainers.generate_backup_mounts_loop dest_prefix l m0 = Ok m ->
  m !! src = Some v ->
  m0 !! src = Some v \/
  exists c (vols : gmap (option string) (option string * string)),
    c ∈ l /\ Container.volume_backup_enabled c = true /\
    Container.volumes_for_backup c dest_prefix "ro" = Ok vols /\
    vols !! src = Some v.
Proof.
  revert m0. induction l as [|c l IH]; intros m0;
    cbn [RunningContainers.generate_backup_mounts_loop].
  - intros [= <-]. auto.
  - destruct (Container.volume_backup_enabled c) eqn:Hvol.
    + destruct (Container.volumes_for_backup c dest_prefix "ro") as [vols|e] eqn:Hv;
        simpl; [|discriminate].
      intros Hloop Hm. destruct (IH _ Hloop Hm) as [Hu|(c' & vols' & Hin & Hrest)].
      * apply lookup_union_Some_raw in Hu as [Hu|[_ Hu]].
        -- right. exists c, vols. split; [left|]. auto.
        -- left. exact Hu.
      * right. exists c', vols'. split; [right; exact Hin | exact Hrest].
    + intros Hloop Hm. destruct (IH _ Hloop Hm) as [Hu|(c' & vols' & Hin & Hrest)].
      * left. exact Hu.
      * right. exists c', vols'. split; [right; exact Hin | exact Hrest].
Qed.

(** X17. After a successful discovery, every entry of the mounts generated
    for the backup process is read-only and is the bind of a mount that
    passed the filter of one of the discovered containers, and that
    container is not self: its id differs from the id of self, it is of the
    project of self, and it has the volume label. *)
Theorem X17_generated_mounts_provenance {U : Utils} (HOSTNAME : option string)
    (all : list RawData) (rc : RunningContainers.t)
    (dest_prefix : string) (mounts : gmap (option string) (option string * string))
    (src : option string) (v : option string * string) :
  RunningContainers.__init__ HOSTNAME all = Ok rc ->
  RunningContainers.generate_backup_mounts rc dest_prefix = Ok mounts ->
  mounts !! src = Some v ->
  exists c ms mount b,
    c ∈ RunningContainers.containers rc /\
    Container.id c <> Container.id (RunningContainers.this_container rc) /\
    Container.project_name c
    = Container.project_name (RunningContainers.this_container rc) /\
    Container.volume_backup_enabled c = true /\
    Container.filter_mounts c = Ok ms /\
    mount ∈ ms /\
    Mount.source mount = src /\
    Container.backup_bind c dest_prefix mount = Ok b /\
    v = (Some b, "ro").
Proof.
  unfold RunningContainers.generate_backup_mounts. intros Hinit Hgen Hm.
  destruct (generate_backup_mounts_loop_from _ _ _ _ _ _ Hgen Hm)
    as [Habs|(c & vols & Hin & Hvol & Hv & Hl)].
  { change ((∅ : gmap (option string) (option string * string)) !! src = Some v)
      in Habs.
    rewrite lookup_empty in Habs. discriminate Habs. }
  unfold RunningContainers.containers_for_backup in Hin.
  apply list_elem_of_filter in Hin as [_ Hin].
  assert (is_peer_of (RunningContainers.this_container rc) c = true) as Hpeer.
  { destruct (discovery_inv _ _ _ Hinit) as (cs & _ & _ & Hcs).
    rewrite Hcs in Hin. apply list_elem_of_filter in Hin as [Hp _]. exact Hp. }
  apply is_peer_of_spec in Hpeer as (Hproj & _ & Hid).
  unfold Container.volumes_for_backup in Hv.
  destruct (Container.filter_mounts c) as [ms|e] eqn:Hf; simpl in Hv; [|discriminate].
  rewrite (volumes_for_backup_loop_lookup c dest_prefix "ro" ms ∅ vols src Hv) in Hl.
  destruct (last (filter (fun m => Mount.source m = src) ms)) as [mount|] eqn:Hlast.
  - destruct (Container.backup_bind c dest_prefix mount) as [b|e] eqn:Hb;
      [|discriminate Hl].
    injection Hl as <-.
    apply last_Some_elem_of in Hlast. apply list_elem_of_filter in Hlast as [Hs Hmount].
    exists c, ms, mount, b. auto 12.
  - rewrite lookup_empty in Hl. discriminate Hl.
Qed.

Example idle_group_discovered :
  RunningContainers.__init__ (Some "1f2e3d")
    [sample.backup_record; sample.web_record; sample.mysql_record]
  = Ok sample.idle_group.
Proof. vm_compute. reflexivity. Qed.

Lemma X17_generated_mounts_provenance_witness :
  exists c ms mount b,
    c ∈ RunningContainers.containers sample.idle_group /\
    Container.id c
    <> Container.id (RunningContainers.this_container sample.idle_group) /\
    Container.project_name c
    = Container.project_name (RunningContainers.this_container sample.idle_group) /\
    Container.volume_backup_enabled (U := sample.utils) c = true /\
    Container.filter_mounts c = Ok ms /\
    mount ∈ ms /\
    Mount.source mount = Some "/srv/files/media" /\
    Container.backup_bind (U := sample.utils) c "/volumes" mount = Ok b /\
    (Some "/volumes/web/srv/media", "ro") = (Some b, "ro").
Proof.
  apply (X17_generated_mounts_provenance (U := sample.utils) (Some "1f2e3d")
           [sample.backup_record; sample.web_record; sample.mysql_record]
           sample.idle_group "/volumes" sample.idle_mounts).
  - exact idle_group_discovered.
  - vm_compute. reflexivity.
  - vm_compute. reflexivity.
Defined.

(** ** The outer backup command: what follows the guard *)

Section AfterTheGuard.
Context {U : Utils} {D : Delegates}.
Variables (config : config.Config) (rc : RunningContainers.t).
Variables (v : value) (mounts : gmap (option string) (option string * string)).
Let init : call := restic_init_repo (config.repository config).
Let spawn : call := spawn_call rc mounts.

(** X18. When the mounts of the peers cannot be generated, [backup] ends
    with that error right after the repository initialisation: nothing is
    spawned and no alert is sent. *)
Theorem X18_backup_aborts_on_mount_failure (e : exn) :
  RunningContainers.backup_process_running rc = false ->
  respond [] (restic_init_repo (config.repository config)) = Returned v ->
  RunningContainers.generate_backup_mounts rc "/volumes" = Err e ->
  backup config rc []
  = (Err e, [Called (restic_init_repo (config.repository config)) (Returned v)]).
Proof.
  intros Hrun Hinit Hgen. unfold backup. rewrite Hrun. run_M.
  rewrite Hinit, Hgen. reflexivity.
Qed.

Hypothesis guard_open : RunningContainers.backup_process_running rc = false.
Hypothesis init_returns : respond [] init = Returned v.
Hypothesis mounts_built :
  RunningContainers.generate_backup_mounts rc "/volumes" = Ok mounts.

(** What [backup] comes to once the spawn request is due. *)
Lemma backup_at_spawn :
  backup config rc []
  = (r ← try_except
           (result ← extern spawn; mret (Some result))
           (fun ex =>
              logger_exception ex ;;
              extern (alerts_send "Exception during backup" (str ex) "ERROR") ;;
              mret None);
     match r with
     | None => mret tt
     | Some result =>
         if ne_zero result
         then body ← extern (open_read "backup.log");
              extern (alerts_send "Backup process exited with non-zero code"
                                  (Text body) "ERROR") ;;
              mret tt
         else mret tt
     end) [Called init (Returned v)].
Proof.
  unfold backup. rewrite guard_open.
  unfold mbind at 1. unfold M_bind at 1.
  unfold extern at 1. fold init. rewrite init_returns. simpl.
  unfold mbind at 1. unfold M_bind at 1. unfold lift. rewrite mounts_built.
  reflexivity.
Qed.

(** X19. When the spawned container exits with 0, [backup] returns
    normally after the spawn request: no log file is read and no alert is
    sent. *)
Theorem X19_backup_quiet_on_success (code : value) :
  respond [Called init (Returned v)] spawn = Returned code ->
  ne_zero code = false ->
  backup config rc []
  = (Ok tt, [Called init (Returned v); Called spawn (Returned code)]).
Proof.
  intros Hspawn Hcode. rewrite backup_at_spawn. run_M.
  rewrite Hspawn, Hcode. reflexivity.
Qed.

(** X20. When the spawned container exits with a non-zero code, [backup]
    reads [backup.log] and sends its content as an alert of type ERROR,
    then returns normally. *)
Theorem X20_backup_alerts_on_exit_code (code body sent : value) :
  respond [Called init (Returned v)] spawn = Returned code ->
  ne_zero code = true ->
  respond [Called init (Returned v); Called spawn (Returned code)]
    (open_read "backup.log") = Returned body ->
  respond [Called init (Returned v); Called spawn (Returned code);
           Called (open_read "backup.log") (Returned body)]
    (alerts_send "Backup process exited with non-zero code" (Text body) "ERROR")
  = Returned sent ->
  backup config rc []
  = (Ok tt,
     [Called init (Returned v); Called spawn (Returned code);
      Called (open_read "backup.log") (Returned body);
      Called (alerts_send "Backup process exited with non-zero code" (Text body)
                "ERROR")
             (Returned sent)]).
Proof.
  intros Hspawn Hcode Hread Hsend. rewrite backup_at_spawn. run_M.
  rewrite Hspawn, Hcode. simpl. rewrite Hread. simpl. rewrite Hsend. reflexivity.
Qed.

(** X21. When the spawn request raises an ordinary exception, [backup]
    does not let it through: it logs it, sends an alert of type ERROR whose
    body is the text of the exception, and returns normally without
    reading the log file. *)
Theorem X21_backup_swallows_spawn_exception (e : exn) (sent : value) :
  respond [Called init (Returned v)] spawn = Raised e ->
  is_Exception e = true ->
  respond [Called init (Returned v); Called spawn (Raised e); LoggedException e]
    (alerts_send "Exception during backup" (str e) "ERROR")
  = Returned sent ->
  backup config rc []
  = (Ok tt,
     [Called init (Returned v); Called spawn (Raised e); LoggedException e;
      Called (alerts_send "Exception during backup" (str e) "ERROR")
             (Returned sent)]).
Proof.
  intros Hspawn Hexc Hsend. rewrite backup_at_spawn. run_M.
  rewrite Hspawn, Hexc. simpl. rewrite Hsend. reflexivity.
Qed.

(** X22. When the spawned container exits with a non-zero code and
    [backup.log] cannot be read, the exception of the read ends [backup]:
    no alert is sent for the failed backup. *)
Theorem X22_backup_no_alert_without_log (code : value) (e : exn) :
  respond [Called init (Returned v)] spawn = Returned code ->
  ne_zero code = true ->
  respond [Called init (Returned v); Called spawn (Returned code)]
    (open_read "backup.log") = Raised e ->
  backup config rc []
  = (Err e,
     [Called init (Returned v); Called spawn (Returned code);
      Called (open_read "backup.log") (Raised e)]).
Proof.
  intros Hspawn Hcode Hread. rewrite backup_at_spawn. run_M.
  rewrite Hspawn, Hcode. simpl. rewrite Hread. reflexivity.
Qed.

End AfterTheGuard.

Lemma X18_backup_aborts_on_mount_failure_witness :
  backup (U := sample.utils) (D := sample.all_succeed)
    sample.settings sample.nameless_group []
  = (Err TypeError,
     [Called (restic_init_repo (config.repository sample.settings))
             (Returned (VInt 0))]).
Proof.
  apply (X18_backup_aborts_on_mount_failure (U := sample.utils)
           (D := sample.all_succeed)).
  - reflexivity.
  - reflexivity.
  - vm_compute. reflexivity.
Defined.

Lemma idle_mounts_generated :
  RunningContainers.generate_backup_mounts (U := sample.utils)
    sample.idle_group "/volumes" = Ok sample.idle_mounts.
Proof. vm_compute. reflexivity. Qed.

Lemma X19_backup_quiet_on_success_witness :
  backup (U := sample.utils) (D := sample.all_succeed)
    sample.settings sample.idle_group []
  = (Ok tt,
     [Called (restic_init_repo (config.repository sample.settings)) (Returned (VInt 0));
      Called (spawn_call sample.idle_group sample.idle_mounts) (Returned (VInt 0))]).
Proof.
  apply (X19_backup_quiet_on_success (U := sample.utils) (D := sample.all_succeed)).
  - reflexivity.
  - reflexivity.
  - exact idle_mounts_generated.
  - reflexivity.
  - reflexivity.
Defined.

Lemma X20_backup_alerts_on_exit_code_witness :
  backup (U := sample.utils) (D := sample.spawn_fails)
    sample.settings sample.idle_group []
  = (Ok tt,
     [Called (restic_init_repo (config.repository sample.settings)) (Returned (VInt 0));
      Called (spawn_call sample.idle_group sample.idle_mounts) (Returned (VInt 3));
      Called (open_read "backup.log") (Returned (VStr "restic: lock failed"));
      Called (alerts_send "Backup process exited with non-zero code"
                (Text (VStr "restic: lock failed")) "ERROR")
             (Returned (VInt 0))]).
Proof.
  apply (X20_backup_alerts_on_exit_code (U := sample.utils) (D := sample.spawn_fails)).
  - reflexivity.
  - reflexivity.
  - exact idle_mounts_generated.
  - reflexivity.
  - reflexivity.
  - reflexivity.
  - reflexivity.
Defined.

Lemma X21_backup_swallows_spawn_exception_witness :
  backup (U := sample.utils) (D := sample.spawn_raises)
    sample.settings sample.idle_group []
  = (Ok tt,
     [Called (restic_init_repo (config.repository sample.settings)) (Returned (VInt 0));
      Called (spawn_call sample.idle_group sample.idle_mounts)
             (Raised (RuntimeError "no image"));
      LoggedException (RuntimeError "no image");
      Called (alerts_send "Exception during backup"
                (str (RuntimeError "no image")) "ERROR")
             (Returned (VInt 0))]).
Proof.
  apply (X21_backup_swallows_spawn_exception (U := sample.utils)
           (D := sample.spawn_raises)).
  - reflexivity.
  - reflexivity.
  - exact idle_mounts_generated.
  - reflexivity.
  - reflexivity.
  - reflexivity.
Defined.

Lemma X22_backup_no_alert_without_log_witness :
  backup (U := sample.utils) (D := sample.log_unreadable)
    sample.settings sample.idle_group []
  = (Err (RuntimeError "backup.log"),
     [Called (restic_init_repo (config.repository sample.settings)) (Returned (VInt 0));
      Called (spawn_call sample.idle_group sample.idle_mounts) (Returned (VInt 3));
      Called (open_read "backup.log") (Raised (RuntimeError "backup.log"))]).
Proof.
  apply (X22_backup_no_alert_without_log (U := sample.utils)
           (D := sample.log_unreadable)).
  - reflexivity.
  - reflexivity.
  - exact idle_mounts_generated.
  - reflexivity.
  - reflexivity.
  - reflexivity.
Defined.

(** ** Retention cleanup *)

(** X23. [cleanup] calls [forget] first and, whatever code [forget]
    returned, [prune] next; it answers [True] exactly when both returned 0.
    Only an exception of [forget] keeps [prune] from being called. *)
Theorem X23_cleanup_forget_then_prune {U : Utils} {D : Delegates}
    (config : config.Config) (tr : list event) :
  let f := restic_forget (config.repository config) (config.keep_daily config)
             (config.keep_weekly config) (config.keep_monthly config)
             (config.keep_yearly config) in
  let p := restic_prune (config.repository config) in
  cleanup config tr
  = match respond tr f with
    | Raised e => (Err e, (tr ++ [Called f (Raised e)])%list)
    | Returned v1 =>
        let tr1 := (tr ++ [Called f (Returned v1)])%list in
        match respond tr1 p with
        | Raised e => (Err e, (tr1 ++ [Called p (Raised e)])%list)
        | Returned v2 =>
            (Ok (VBool (eq_zero v1 && eq_zero v2)),
             (tr1 ++ [Called p (Returned v2)])%list)
        end
    end.
Proof.
  intros f p. unfold cleanup. run_M. fold f p.
  destruct (respond tr f) as [v1|e1]; [|reflexivity].
  destruct (respond (tr ++ [Called f (Returned v1)]) p); reflexivity.
Qed.

(** ** The status report *)

Lemma ping_extern {U : Utils} {D : Delegates} (k : Container.kind) (c : Container.t) :
  k <> Container.BaseContainer -> ping (k, c) = extern (instance_ping k c).
Proof. destruct k; [contradiction | reflexivity..]. Qed.

(** One pass of the loop of [status] over a peer. *)
Lemma status_step {U : Utils} {D : Delegates} (c : Container.t) (tr : list event) :
  exists r tr',
    ((if Container.volume_backup_enabled c
      then lift (Container.filter_mounts c) ;; mret tt
      else mret tt) ;;
     (if Container.database_backup_enabled c
      then instance ← get_instance c;
           ping ← ping instance;
           if ne_zero ping
           then logger_error "Database '%s' in service %s cannot be reached"
           else mret tt
      else mret tt)) tr
    = (r, (tr ++ tr')%list) /\
    Forall is_ping (calls tr') /\
    ((Container.volume_backup_enabled c = true ->
      is_Ok (Container.filter_mounts c) = true) ->
     (forall k, exists v, respond tr (instance_ping k c) = Returned v) ->
     r = Ok tt /\
     calls tr' = if Container.database_backup_enabled c then [ping_call c] else []).
Proof.
  assert (exists r tr',
    (if Container.database_backup_enabled c
     then instance ← get_instance c;
          ping ← ping instance;
          if ne_zero ping
          then logger_error "Database '%s' in service %s cannot be reached"
          else mret tt
     else mret tt) tr
    = (r, (tr ++ tr')%list) /\
    Forall is_ping (calls tr') /\
    ((forall k, exists v, respond tr (instance_ping k c) = Returned v) ->
     r = Ok tt /\
     calls tr' = if Container.database_backup_enabled c then [ping_call c] else []))
    as (r & tr' & Hdb & Hpings & Hok).
  { destruct (Container.database_backup_enabled c) eqn:Hdbe.
    - destruct (instance_db c Hdbe) as [Hinst Hkind].
      unfold get_instance. rewrite Hinst.
      pose proof (ping_extern (db_kind c) c Hkind) as Hext.
      unfold ping_call. run_M. rewrite Hext. clear Hext. run_M.
      set (pc := instance_ping (db_kind c) c).
      destruct (respond tr pc) as [v|e] eqn:Hr.
      + destruct (ne_zero v).
        * exists (Ok tt),
            [Called pc (Returned v);
             LoggedError "Database '%s' in service %s cannot be reached"].
          rewrite <- app_assoc. repeat split; repeat constructor.
        * exists (Ok tt), [Called pc (Returned v)].
          repeat split; repeat constructor.
      + exists (Err e), [Called pc (Raised e)].
        split; [reflexivity|]. split; [repeat constructor|].
        intros Hping. destruct (Hping (db_kind c)) as [v Hv].
        fold pc in Hv. congruence.
    - exists (Ok tt), []. run_M. rewrite app_nil_r. repeat split; constructor. }
  destruct (Container.volume_backup_enabled c).
  - destruct (Container.filter_mounts c) as [ms|e] eqn:Hf.
    + exists r, tr'. run_M. split; [exact Hdb|]. split; [exact Hpings|].
      intros _. exact Hok.
    + exists (Err e), []. run_M. rewrite app_nil_r.
      split; [reflexivity|]. split; [constructor|].
      intros Habs. specialize (Habs eq_refl). discriminate Habs.
  - exists r, tr'. run_M. split; [exact Hdb|]. split; [exact Hpings|].
    intros _. exact Hok.
Qed.

Lemma M_bind_assoc {A B C} (m : M A) (f : A -> M B) (g : B -> M C)
    (tr : list event) :
  ((m ≫= f) ≫= g) tr = (m ≫= (fun x => f x ≫= g)) tr.
Proof. unfold mbind, M_bind. destruct (m tr) as [[a|e] tr']; reflexivity. Qed.

(** The loop of [status]. *)
Lemma status_loop_spec {U : Utils} {D : Delegates} (l : list Container.t)
    (tr : list event) :
  exists r tr',
    status_loop l tr = (r, (tr ++ tr')%list) /\
    Forall is_ping (calls tr') /\
    (Forall (fun c => Container.volume_backup_enabled c = true ->
                      is_Ok (Container.filter_mounts c) = true) l ->
     (forall tr k c, exists v, respond tr (instance_ping k c) = Returned v) ->
     r = Ok tt /\
     calls tr'
     = map ping_call (filter (fun c => Container.database_backup_enabled c = true) l)).
Proof.
  revert tr. induction l as [|c l IH]; intros tr.
  - exists (Ok tt), []. simpl. rewrite app_nil_r. repeat split; constructor.
  - cbn [status_loop].
    destruct (status_step c tr) as (r1 & tr1 & Hstep & Hp1 & Hok1).
    match goal with
    | |- exists r tr', ?run = _ /\ _ =>
        assert (run = run) as Hassoc by reflexivity;
        rewrite <- M_bind_assoc in Hassoc at 1; rewrite <- Hassoc; clear Hassoc
    end.
    unfold mbind at 1. unfold M_bind at 1. rewrite Hstep.
    destruct r1 as [[]|e].
    + destruct (IH (tr ++ tr1)%list) as (r2 & tr2 & Hrest & Hp2 & Hok2).
      rewrite Hrest. exists r2, (tr1 ++ tr2)%list.
      rewrite app_assoc. split; [reflexivity|].
      split; [rewrite calls_app; apply Forall_app; auto|].
      intros Hf Hping. inversion Hf as [|? ? Hc Hl]; subst.
      destruct (Hok1 Hc (fun k => Hping tr k c)) as [_ Hcalls1].
      destruct (Hok2 Hl Hping) as [-> Hcalls2].
      split; [reflexivity|]. rewrite calls_app, Hcalls1, Hcalls2.
      destruct (Container.database_backup_enabled c) eqn:Hdbe.
      * rewrite filter_cons_True by exact Hdbe. reflexivity.
      * rewrite filter_cons_False by (rewrite Hdbe; discriminate). reflexivity.
    + exists (Err e), tr1. split; [reflexivity|]. split; [exact Hp1|].
      intros Hf Hping. inversion Hf as [|? ? Hc Hl]; subst.
      destruct (Hok1 Hc (fun k => Hping tr k c)) as [Habs _]. discriminate Habs.
Qed.

(** X24. [status] only pings: whatever the delegates answer, every call it
    makes is a ping of a database, so it never touches the repository,
    spawns nothing and sends no alert. *)
Theorem X24_status_only_pings {U : Utils} {D : Delegates} (config : config.Config)
    (rc : RunningContainers.t) (tr : list event) :
  exists r tr',
    status config rc tr = (r, (tr ++ tr')%list) /\ Forall is_ping (calls tr').
Proof.
  unfold status.
  destruct (status_loop_spec (RunningContainers.containers_for_backup rc) tr)
    as (r & tr' & Hs & Hp & _).
  exists r, tr'. auto.
Qed.

(** X25. When every ping comes back and the mounts of the peers with the
    volume label can be filtered, [status] completes and has pinged the
    database of every peer with a database label, once each and in order;
    a database that answers with a non-zero code is reported, not fatal. *)
Theorem X25_status_pings_every_database {U : Utils} {D : Delegates}
    (config : config.Config) (rc : RunningContainers.t) (tr : list event) :
  (forall tr k c, exists v, respond tr (instance_ping k c) = Returned v) ->
  Forall (fun c => Container.volume_backup_enabled c = true ->
                   is_Ok (Container.filter_mounts c) = true)
         (RunningContainers.containers_for_backup rc) ->
  exists tr',
    status config rc tr = (Ok tt, (tr ++ tr')%list) /\
    calls tr' = map ping_call (db_targets rc).
Proof.
  intros Hping Hf. unfold status, db_targets.
  destruct (status_loop_spec (RunningContainers.containers_for_backup rc) tr)
    as (r & tr' & Hs & _ & Hok).
  destruct (Hok Hf Hping) as [-> Hcalls]. exists tr'. auto.
Qed.

Lemma X25_status_pings_every_database_witness :
  exists tr',
    status (U := sample.utils) (D := sample.all_succeed)
      sample.settings sample.group [] = (Ok tt, ([] ++ tr')%list) /\
    calls tr'
    = map (ping_call (U := sample.utils)) (db_targets (U := sample.utils) sample.group).
Proof.
  apply (X25_status_pings_every_database (U := sample.utils)
           (D := sample.all_succeed)).
  - intros tr k c. exists (VInt 0). reflexivity.
  - unfold RunningContainers.containers_for_backup.
    repeat (rewrite filter_cons_True by (vm_compute; reflexivity)).
    repeat (constructor; [intros _; vm_compute; reflexivity|]). constructor.
Defined.

(** X26. A status report that fails (a ping that raises, mounts that cannot
    be filtered) ends the inner backup process with the same error before
    any backup: the only calls made are pings. *)
Theorem X26_status_failure_stops_backup {U : Utils} {D : Delegates}
    (config : config.Config) (rc : RunningContainers.t) (e : exn)
    (tr0 : list event) :
  is_Some (RunningContainers.backup_process_container rc) ->
  status config rc [] = (Err e, tr0) ->
  start_backup_process config rc [] = (Err e, tr0) /\ Forall is_ping (calls tr0).
Proof.
  intros Hbpc Hstatus. split.
  - rewrite (guard_open config rc Hbpc).
    unfold mbind at 1. unfold M_bind at 1. rewrite Hstatus. reflexivity.
  - unfold status in Hstatus.
    destruct (status_loop_spec (RunningContainers.containers_for_backup rc) [])
      as (r & tr' & Hs & Hp & _).
    rewrite Hs in Hstatus. injection Hstatus as _ <-. exact Hp.
Qed.

Lemma X26_status_failure_stops_backup_witness :
  start_backup_process (U := sample.utils) (D := sample.ping_raises)
    sample.settings sample.group []
  = (Err (RuntimeError "no socket"),
     [Called (instance_ping Container.MysqlContainer sample.mysql)
             (Raised (RuntimeError "no socket"))]) /\
  Forall is_ping
    (calls [Called (instance_ping Container.MysqlContainer sample.mysql)
                   (Raised (RuntimeError "no socket"))]).
Proof.
  apply (X26_status_failure_stops_backup (U := sample.utils)
           (D := sample.ping_raises)).
  - eexists. reflexivity.
  - vm_compute. reflexivity.
Defined.

(** ** Single flight, end to end *)

Lemma built_from_elem (all : list RawData) (cs : list Container.t)
    (d : RawData) (c : Container.t) :
  built_from all cs -> d ∈ all -> Container.__init__ d = Ok c -> c ∈ cs.
Proof.
  induction 1 as [|d' c' rest cs Hc' _ IH]; intros Hd Hc.
  - inversion Hd.
  - apply elem_of_cons in Hd as [->|Hd].
    + rewrite Hc in Hc'. injection Hc' as <-. left.
    + right. exact (IH Hd Hc).
Qed.

(** X27. The labels that [backup] hands to the spawn request close the
    guard behind it: as soon as discovery sees a record whose container
    carries those labels, every [backup] command is refused with
    [ValueError "Backup process already running"] before any call. *)
Theorem X27_spawned_container_blocks_backup {U : Utils} {D : Delegates}
    (config : config.Config) (rc : RunningContainers.t)
    (mounts : gmap (option string) (option string * string))
    (image : option string) (command : string)
    (volumes : gmap (option string) (option string * string))
    (environment : option (list string)) (source_container_id : option string)
    (labels : gmap string (option string))
    (HOSTNAME : option string) (all : list RawData) (rc' : RunningContainers.t)
    (d : RawData) (c : Container.t) :
  spawn_call rc mounts
  = backup_runner_run image command volumes environment source_container_id labels ->
  (forall k v, labels !! k = Some (Some v) -> Container._labels c !! k = Some v) ->
  d ∈ all ->
  Container.__init__ d = Ok c ->
  RunningContainers.__init__ HOSTNAME all = Ok rc' ->
  backup config rc' [] = (Err (ValueError "Backup process already running"), []).
Proof.
  intros Hspawn Hlabels Hd Hc Hrc'.
  assert (Container.is_backup_process_container c = true) as Hmark.
  { unfold spawn_call in Hspawn. injection Hspawn as _ _ _ _ _ <-.
    unfold Container.is_backup_process_container.
    rewrite (get_label_present c _ "True").
    - reflexivity.
    - apply Hlabels. apply lookup_insert_eq. }
  destruct (discovery_inv HOSTNAME all rc' Hrc') as (cs & Hcs & Hbpc & _).
  apply backup_guard_closed. unfold RunningContainers.backup_process_running.
  assert (is_Some (RunningContainers.backup_process_container rc')) as [b Hb].
  { rewrite Hbpc. apply last_filter_is_Some. apply Exists_exists.
    exists c. split; [exact (built_from_elem all cs d c Hcs Hd Hc) | exact Hmark]. }
  rewrite Hb. reflexivity.
Qed.

Example busy_group_discovered :
  RunningContainers.__init__ (Some "1f2e3d")
    [sample.backup_record; sample.web_record; sample.process_record]
  = Ok sample.busy_group.
Proof. vm_compute. reflexivity. Qed.

Lemma X27_spawned_container_blocks_backup_witness :
  backup (U := sample.utils) (D := sample.all_succeed)
    sample.settings sample.busy_group []
  = (Err (ValueError "Backup process already running"), []).
Proof.
  apply (X27_spawned_container_blocks_backup (U := sample.utils)
           (D := sample.all_succeed) sample.settings
           sample.idle_group sample.idle_mounts
           _ _ _ _ _ _
           (Some "1f2e3d")
           [sample.backup_record; sample.web_record; sample.process_record]
           sample.busy_group sample.process_record sample.process eq_refl).
  - intros k v.
    destruct (decide (k = "restic-compose-backup.backup_process")) as [->|Hk1].
    { rewrite lookup_insert_eq. intros [= <-]. vm_compute. reflexivity. }
    rewrite lookup_insert_ne by congruence.
    destruct (decide (k = "com.docker.compose.project")) as [->|Hk2].
    { rewrite lookup_insert_eq. intros [= <-]. vm_compute. reflexivity. }
    rewrite lookup_insert_ne by congruence. rewrite lookup_empty. discriminate.
  - apply list_elem_of_In. simpl. auto.
  - vm_compute. reflexivity.
  - exact busy_group_discovered.
Defined.

(** ** Equality of containers *)

(** X28. Container equality looks at the id only: it is reflexive,
    symmetric and transitive, it holds between any two containers with the
    same id whatever else they hold, and no container equals [None]. *)
Theorem X28_container_eq_by_id (a b c : Container.t) :
  Container.__eq__ a None = false /\
  (Container.__eq__ a (Some b) = true <-> Container.id a = Container.id b) /\
  Container.__eq__ a (Some a) = true /\
  Container.__eq__ a (Some b) = Container.__eq__ b (Some a) /\
  (Container.__eq__ a (Some b) = true -> Container.__eq__ b (Some c) = true ->
   Container.__eq__ a (Some c) = true).
Proof.
  unfold Container.__eq__. split; [reflexivity|].
  split; [apply opt_str_eqb_eq|].
  split; [apply opt_str_eqb_eq; reflexivity|].
  split.
  - destruct (opt_str_eqb (Container.id a) (Container.id b)) eqn:Hab; symmetry.
    + apply opt_str_eqb_eq. apply opt_str_eqb_eq in Hab. congruence.
    + apply opt_str_eqb_neq. apply opt_str_eqb_neq in Hab. congruence.
  - rewrite !opt_str_eqb_eq. congruence.
Qed.
